(** * The client-side [Allocations.Exec] streaming endpoint

    A shallow embedding of [Allocations.exec], [Allocations.execImpl] and of
    the [execStream] adapter ([newExecStream], [Send], [Recv]) of the Nomad
    client, together with the properties of the exec-session subsystem that
    the specification states about them.

    Go values are modelled as follows.
    - [error] values are an inductive type with the sentinels the endpoint
      returns and one constructor for errors built by [errors.New] and
      [fmt.Errorf].
    - A [*int64] status code is an [option Z]; only 400, 404 and 500 occur.
    - A nil-able pointer is an [option].
    - The connection, the logger and the bookkeeping of which collaborator
      calls were made are threaded explicitly as a [State].
    - The msgpack and JSON handles of the codec library are an interface
      ([Codec]); the driver's exec handler is a program over the two
      operations of [drivers.ExecTaskStream].

    The request/response endpoints of the same file ([GarbageCollectAll],
    [GarbageCollect], [Signal], [Restart], [Stats]) and the Nix task hook
    ([Prestart], [install], [profileInstall], [requisites]) follow, each over
    an abstract state of the node or of the host. *)

From stdpp Require Import base strings list gmap.
From Stdlib Require Import ZArith.

Local Open Scope Z_scope.

(** ** Data model *)

Abbreviation byte := Byte.byte.

(** Go [error] values seen by the endpoint. *)
Inductive Error : Type :=
  | ErrPermissionDenied          (* nstructs.ErrPermissionDenied *)
  | allocIDNotPresentErr         (* package-level sentinel *)
  | taskNotPresentErr            (* package-level sentinel *)
  | errorString (msg : string).  (* errors.New(..), fmt.Errorf(..) *)

#[global] Instance Error_eq_dec : EqDecision Error.
Proof. solve_decision. Defined.

(** [cstructs.AllocExecRequest]; the embedded [QueryOptions] is reduced to
    the one field the endpoint reads. *)
Record AllocExecRequest : Type := mkAllocExecRequest {
  AllocID : string;
  Task : string;
  Tty : bool;
  Cmd : list string;
  AuthToken : string
}.

(** The zero value of [var req cstructs.AllocExecRequest]. *)
Definition zeroAllocExecRequest : AllocExecRequest :=
  mkAllocExecRequest EmptyString EmptyString false [] EmptyString.

(** Modelled from the spec: the declaration of
    [drivers.ExecTaskStreamingResponseMsg] is not part of the sources at
    hand; the output frame is [{stdout: bytes?, stderr: bytes?, exited: bool,
    exitCode: int?}]. *)
Record ExecTaskStreamingResponseMsg : Type := mkResponseMsg {
  Stdout : option (list byte);
  Stderr : option (list byte);
  Exited : bool;
  ExitCode : option Z
}.

(** Modelled from the spec: the declaration of
    [drivers.ExecTaskStreamingRequestMsg] is not part of the sources at hand;
    the input frame is [{stdin: bytes?, ttySize: {height,width}?, close:
    bool?}]. *)
Record ExecTaskStreamingRequestMsg : Type := mkRequestMsg {
  Stdin : option (list byte);
  TtySize : option (Z * Z);
  Close : option bool
}.

(** The zero value [drivers.ExecTaskStreamingRequestMsg{}]. *)
Definition zeroRequestMsg : ExecTaskStreamingRequestMsg :=
  mkRequestMsg None None None.

(** Modelled from the spec: the declaration of [cstructs.StreamErrWrapper]
    is not part of the sources at hand; the shared envelope is [{payload:
    bytes, errorMessage: optional string, errorCode: optional integer}]. *)
Record StreamErrWrapper : Type := mkStreamErrWrapper {
  Payload : list byte;
  ErrorMessage : option string;
  ErrorCode : option Z
}.

(** [*acl.ACL]: the capability set of a resolved token, seen through the one
    query the endpoint makes. *)
Record ACL : Type := mkACL {
  AllowNsOp : string -> string -> bool
}.

(** Modelled from the spec: the namespace capabilities are constants of the
    [acl] package, named "alloc-exec" and "alloc-node-exec". *)
Definition NamespaceCapabilityAllocExec : string := "alloc-exec".
Definition NamespaceCapabilityAllocNodeExec : string := "alloc-node-exec".

(** The token identity used by the audit record. *)
Record ACLToken : Type := mkACLToken {
  Name : string;
  AccessorID : string
}.

(** [drivers.Capabilities], reduced to the field the endpoint reads;
    [drivers.FSIsolation] is a Go string type. *)
Record Capabilities : Type := mkCapabilities {
  FSIsolation : string
}.

(** Modelled from the spec: the isolation mode of an unisolated task is the
    constant "none" of the [drivers] package. *)
Definition FSIsolationNone : string := "none".

(** [time.Time], as far as [IsZero] looks at it. *)
Record Time : Type := mkTime {
  sec : Z;
  nsec : Z
}.

Definition IsZero (t : Time) : bool := (sec t =? 0)%Z && (nsec t =? 0)%Z.

Record TaskState : Type := mkTaskState {
  StartedAt : Time
}.

(** [TaskStates] is a [map[string]*TaskState]: a key may be absent, or be
    present and hold a nil pointer. *)
Record AllocState : Type := mkAllocState {
  TaskStates : gmap string (option TaskState)
}.

Record Allocation : Type := mkAllocation {
  Namespace : string
}.

(** A [drivers.TaskExecHandler], applied to its command and tty flag, is a
    program that talks to the caller through [Send] and [Recv] of the stream
    it is given and finally returns an error or nil.  The context it receives
    is only cancelled after it has returned; a handler that never returns
    leaves [execImpl] without a result and is not represented. *)
Inductive HandlerProg : Type :=
  | HReturn (err : option Error)
  | HSend (m : ExecTaskStreamingResponseMsg) (k : option Error -> HandlerProg)
  | HRecv (k : option ExecTaskStreamingRequestMsg -> option Error -> HandlerProg).

Definition TaskExecHandler : Type := list string -> bool -> HandlerProg.

(** The [AllocRunner] interface, as far as the endpoint calls it. *)
Record AllocRunner : Type := mkAllocRunner {
  Alloc : Allocation;
  GetTaskDriverCapabilities : string -> Error + Capabilities;
  GetTaskExecHandler : string -> option TaskExecHandler
}.

(** The client [a.c], as far as the endpoint calls it, together with the two
    library functions whose result the endpoint depends on. *)
Record Client : Type := mkClient {
  DisableRemoteExec : bool;                       (* a.c.GetConfig().DisableRemoteExec *)
  getAllocRunner : string -> Error + AllocRunner;
  resolveTokenAndACL : string -> option ACL * option ACLToken * option Error;
  GetAllocState : string -> Error + AllocState;
  IsErrUnknownAllocation : Error -> bool;         (* nstructs.IsErrUnknownAllocation *)
  quote : string -> string                        (* the %q verb of fmt *)
}.

(** ** The connection and the codec *)

(** The duplex connection: unread input, output written so far, the outcome
    of the writes still to come (a missing entry or [None] is a write that
    succeeds) and whether [Close] was called. *)
Record Conn : Type := mkConn {
  conn_in : list byte;
  conn_out : list byte;
  conn_faults : list (option Error);
  conn_closed : bool
}.

(** The two handles of the codec library used by the endpoint: msgpack on the
    connection, JSON for the frames.  [Decode(&v)] stores into a value the
    caller has initialised and returns the value as it left it. *)
Class Codec : Type := {
  decodeRequest :
    list byte -> AllocExecRequest -> AllocExecRequest * option Error * list byte;
  decodeInput :
    list byte -> ExecTaskStreamingRequestMsg ->
    ExecTaskStreamingRequestMsg * option Error * list byte;
  encodeWrapper : StreamErrWrapper -> list byte;
  encodeFrame : ExecTaskStreamingResponseMsg -> list byte
}.

(** What an observer of one run can see: the log lines, the audit record,
    and the calls made to the capability set, to the driver handler and to
    the cancel function of the session context. *)
Inductive LogLevel : Type := LInfo | LError.

Inductive Event : Type :=
  | EvLog (lvl : LogLevel) (msg : string)
  | EvSessionStarting (execID allocID task : string) (command : list string)
      (tty : bool) (tokenName tokenID : string)
  | EvAllowNsOp (ns cap : string)
  | EvHandler (cmd : list string) (tty : bool)
  | EvCtxCancel.

Record State : Type := mkState {
  st_conn : Conn;
  st_events : list Event
}.

Definition set_conn (c : Conn) (st : State) : State :=
  mkState c (st_events st).

(** ** A monad for a Go function body with early returns

    A computation either goes on with a value or has executed a [return]
    statement with a status code and an error. *)
Inductive Step (A : Type) : Type :=
  | Continue (a : A)
  | Return (code : option Z) (err : option Error).
Arguments Continue {A} a.
Arguments Return {A} code err.

Definition M (A : Type) : Type := State -> State * Step A.

#[global] Instance M_ret : MRet M := fun A a st => (st, Continue a).

#[global] Instance M_bind : MBind M := fun A B f m st =>
  match m st with
  | (st', Continue a) => f a st'
  | (st', Return code err) => (st', Return code err)
  end.

Definition exit {A : Type} (code : option Z) (err : option Error) : M A :=
  fun st => (st, Return code err).

Definition emit (ev : Event) : M unit :=
  fun st => (mkState (st_conn st) (st_events st ++ [ev]), Continue tt).

Definition logger (lvl : LogLevel) (msg : string) : M unit :=
  emit (EvLog lvl msg).

(** [helper.Int64ToPtr]. *)
Definition Int64ToPtr (n : Z) : option Z := Some n.

(** [if cond { return code, err }]. *)
Definition when (cond : bool) (ret : M unit) : M unit :=
  if cond then ret else mret tt.

(** [x, err := f(..); if err != nil { .. return .. }]. *)
Definition try {A : Type} (r : Error + A) (onErr : Error -> M A) : M A :=
  match r with
  | inl err => onErr err
  | inr x => mret x
  end.

(** ** The connection handles *)

(** One [Write] on the connection. *)
Definition connWrite (bs : list byte) (c : Conn) : Conn * option Error :=
  match conn_faults c with
  | Some e :: fs => (mkConn (conn_in c) (conn_out c) fs (conn_closed c), Some e)
  | None :: fs => (mkConn (conn_in c) (conn_out c ++ bs) fs (conn_closed c), None)
  | [] => (mkConn (conn_in c) (conn_out c ++ bs) [] (conn_closed c), None)
  end.

Definition connClose (c : Conn) : Conn :=
  mkConn (conn_in c) (conn_out c) (conn_faults c) true.

Definition set_in (rest : list byte) (c : Conn) : Conn :=
  mkConn rest (conn_out c) (conn_faults c) (conn_closed c).

(** The text of an error, [err.Error()]; the texts of the sentinels are
    declared outside the endpoint. *)
Class ErrorText : Type := Error_text : Error -> string.

Section Endpoint.

Context `{Codec} `{ErrorText}.

(** [encoder.Encode(w)] on the msgpack encoder of the connection: the bytes
    of the envelope in one write.  A write that the connection refuses is
    represented by its error alone; what the library's encoder keeps of a
    refused envelope, and how it answers the calls after it, is outside this
    model, and the properties of what is written are stated for writes that
    the connection accepts. *)
Definition Encode (w : StreamErrWrapper) (c : Conn) : Conn * option Error :=
  connWrite (encodeWrapper w) c.

(** ** execStream *)

(** The mutable part of an [execStream]: its reusable frame buffer.  The
    logger, the decoder and the encoder are the handles of the [State]. *)
Record execStream : Type := mkExecStream {
  buf : list byte
}.

Definition newExecStream : execStream := mkExecStream [].

(** [Send]: the frame is JSON-encoded into the buffer, which is reset first,
    and the buffer becomes the payload of one envelope. *)
Definition Send (s : execStream) (m : ExecTaskStreamingResponseMsg) (st : State)
  : execStream * State * option Error :=
  let st1 := fst (logger LInfo "alloc_exec: sending event" st) in
  let b0 : list byte := [] in                       (* s.buf.Reset() *)
  let b1 := b0 ++ encodeFrame m in                  (* s.frameCodec.MustEncode(m) *)
  let '(c, err) :=
    Encode (mkStreamErrWrapper b1 None None) (st_conn st1) in
  (mkExecStream b1, set_conn c st1, err).

(** [Recv]: the frame variable starts as the zero value, the decoder stores
    into it, and its address is returned whatever the decoder reports. *)
Definition Recv (s : execStream) (st : State)
  : option ExecTaskStreamingRequestMsg * option Error * State :=
  let req := zeroRequestMsg in
  let '(req', err, rest) := decodeInput (conn_in (st_conn st)) req in
  (Some req', err, set_conn (set_in rest (st_conn st)) st).

(** Running a driver handler against a stream. *)
Fixpoint runHandler (p : HandlerProg) (s : execStream) (st : State)
  : State * option Error :=
  match p with
  | HReturn err => (st, err)
  | HSend m k =>
      let '(s', st', err) := Send s m st in
      runHandler (k err) s' st'
  | HRecv k =>
      let '(req, err, st') := Recv s st in
      runHandler (k req err) s st'
  end.

(** ** execImpl *)

(** [decoder.Decode(&req)] on the msgpack decoder of the connection. *)
Definition decodeArgs : M (AllocExecRequest * option Error) := fun st =>
  let '(req, err, rest) := decodeRequest (conn_in (st_conn st)) zeroAllocExecRequest in
  (set_conn (set_in rest (st_conn st)) st, Continue (req, err)).

(** [aclObj.AllowNsOp(ns, cap)], with the call recorded. *)
Definition checkNsOp (aclObj : ACL) (ns cap : string) : M bool :=
  _ ← emit (EvAllowNsOp ns cap);
  mret (AllowNsOp aclObj ns cap).

(** [code := 500; if IsErrUnknownAllocation(err) { code = 404 }]. *)
Definition lookupCode (a : Client) (err : Error) : option Z :=
  if IsErrUnknownAllocation a err then Int64ToPtr 404 else Int64ToPtr 500.

(** What the first part of [execImpl] has established when it goes on. *)
Record Validated : Type := mkValidated {
  v_req : AllocExecRequest;
  v_ar : AllocRunner;
  v_aclObj : option ACL;
  v_capabilities : Capabilities
}.

(** [execImpl], from the decoding of the arguments to the node access check:
    the RequestValidator of the specification. *)
Definition execImpl_validate (a : Client) (execID : string) : M Validated :=
  (* Decode the arguments *)
  '(req, err) ← decodeArgs;
  _ ← match err with
      | Some e =>
          _ ← logger LError "alloc_exec: failed to decode request";
          exit (Int64ToPtr 500) (Some e)
      | None => mret tt
      end;
  _ ← logger LError "alloc_exec: parsed args";
  _ ← when (DisableRemoteExec a) (exit None (Some ErrPermissionDenied));
  _ ← when (bool_decide (AllocID req = EmptyString))
        (exit (Int64ToPtr 400) (Some allocIDNotPresentErr));
  ar ← try (getAllocRunner a (AllocID req)) (fun err =>
        let code := lookupCode a err in
        _ ← logger LError "alloc_exec: failed to get alloc runner";
        exit code (Some err));
  let alloc := Alloc ar in
  let '(aclObj, token, err) := resolveTokenAndACL a (AuthToken req) in
  (* log access *)
  let '(tokenName, tokenID) :=
    match token with
    | Some t => (Name t, AccessorID t)
    | None => (EmptyString, EmptyString)
    end in
  _ ← emit (EvSessionStarting execID (AllocID req) (Task req) (Cmd req) (Tty req)
              tokenName tokenID);
  (* Check alloc-exec permission. *)
  _ ← match err, aclObj with
      | Some e, _ => exit None (Some e)
      | None, Some o =>
          allowed ← checkNsOp o (Namespace alloc) NamespaceCapabilityAllocExec;
          when (negb allowed) (exit None (Some ErrPermissionDenied))
      | None, None => mret tt
      end;
  (* Validate the arguments *)
  _ ← when (bool_decide (Task req = EmptyString))
        (exit (Int64ToPtr 400) (Some taskNotPresentErr));
  _ ← when (bool_decide (length (Cmd req) = 0%nat))
        (exit (Int64ToPtr 400) (Some (errorString "command is not present")));
  capabilities ← try (GetTaskDriverCapabilities ar (Task req)) (fun err =>
        exit (lookupCode a err) (Some err));
  (* check node access *)
  _ ← match aclObj with
      | Some o =>
          if bool_decide (FSIsolation capabilities = FSIsolationNone) then
            exec ← checkNsOp o (Namespace alloc) NamespaceCapabilityAllocNodeExec;
            when (negb exec) (exit None (Some ErrPermissionDenied))
          else mret tt
      | None => mret tt
      end;
  mret (mkValidated req ar aclObj capabilities).

(** [execImpl], from the read of the allocation state to the lookup of the
    exec handler: the TaskLocator of the specification.  The session context
    is created, and its cancellation deferred, before the handler lookup. *)
Definition execImpl_locate (a : Client) (v : Validated) : M TaskExecHandler :=
  let req := v_req v in
  allocState ← try (GetAllocState a (AllocID req)) (fun err =>
        exit (lookupCode a err) (Some err));
  (* Check that the task is there *)
  match default None (TaskStates allocState !! Task req) with
  | None =>
      exit (Int64ToPtr 400)
        (Some (errorString ("unknown task name " +:+ quote a (Task req))))
  | Some taskState =>
      _ ← when (IsZero (StartedAt taskState))
            (exit (Int64ToPtr 404)
               (Some (errorString ("task " +:+ quote a (Task req) +:+ " not started yet."))));
      match GetTaskExecHandler (v_ar v) (Task req) with
      | None =>
          _ ← emit EvCtxCancel;
          exit (Int64ToPtr 404)
            (Some (errorString ("task " +:+ quote a (Task req) +:+ " is not running.")))
      | Some h => mret h
      end
  end.

(** [execImpl], the call of the handler and the mapping of its result: the
    SessionRunner of the specification. *)
Definition execImpl_run (v : Validated) (h : TaskExecHandler) : M Empty_set :=
  let req := v_req v in
  _ ← emit (EvHandler (Cmd req) (Tty req));
  err ← (fun st =>
          let '(st', err) := runHandler (h (Cmd req) (Tty req)) newExecStream st in
          (st', Continue err));
  match err with
  | Some e =>
      let code := Int64ToPtr 500 in
      _ ← logger LError "alloc_exec: handler call failed";
      _ ← emit EvCtxCancel;
      exit code (Some e)
  | None =>
      _ ← logger LError "alloc_exec: finished without error";
      _ ← emit EvCtxCancel;
      exit None None
  end.

Definition execImpl_body (a : Client) (execID : string) : M Empty_set :=
  v ← execImpl_validate a execID;
  h ← execImpl_locate a v;
  execImpl_run v h.

(** [execImpl]: the three parts in sequence; every path ends in a [return]. *)
Definition execImpl (a : Client) (execID : string) (st : State)
  : State * (option Z * option Error) :=
  match execImpl_body a execID st with
  | (st', Return code err) => (st', (code, err))
  | (_, Continue x) => match x with end
  end.

(** Modelled from the spec: [handleStreamResultError] is defined elsewhere in
    the client package.  A terminal status and error is "reported as a single
    ErrorWrapper envelope written directly", the envelope "carrying a status
    code and message". *)
Definition handleStreamResultError (err : Error) (code : option Z) (c : Conn) : Conn :=
  fst (Encode (mkStreamErrWrapper [] (Some (Error_text err)) code) c).

(** [exec]: the handler registered for "Allocations.Exec"; [execID] is the
    identifier drawn by [uuid.Generate]. *)
Definition exec (a : Client) (execID : string) (st : State) : State :=
  let '(st1, (code, err)) := execImpl a execID st in
  let st2 :=
    match err with
    | Some e =>
        let st' := fst (logger LInfo "task exec session ended with an error" st1) in
        set_conn (handleStreamResultError e code (st_conn st')) st'
    | None => fst (logger LInfo "task exec session ended" st1)
    end in
  set_conn (connClose (st_conn st2)) st2.              (* defer conn.Close() *)

End Endpoint.

(** ** Observations on a run *)

(** The events a run from [st] to [st'] has added. *)
Definition new_events (st st' : State) : list Event :=
  drop (length (st_events st)) (st_events st').

(** The bytes a run from [st] to [st'] has written on the connection. *)
Definition new_output (st st' : State) : list byte :=
  drop (length (conn_out (st_conn st))) (conn_out (st_conn st')).

(** The driver handler was not called between [st] and [st']. *)
Definition handler_not_invoked (st st' : State) : Prop :=
  ∀ cmd tty, EvHandler cmd tty ∉ new_events st st'.

(** The handler's own run in the third part of [execImpl]: the state it
    leaves and the error it returns. *)
Definition session `{Codec} (v : Validated) (h : TaskExecHandler) (st : State)
  : State * option Error :=
  let req := v_req v in
  runHandler (h (Cmd req) (Tty req)) newExecStream
    (mkState (st_conn st) (st_events st ++ [EvHandler (Cmd req) (Tty req)])).

(** What holds of the request when the first part of [execImpl] makes a call:
    it never calls the handler; the allocation ID is known to be non-empty at
    both capability checks; the task name and the command are known to be
    non-empty at the second one only. *)
Definition validate_event (req : AllocExecRequest) (ev : Event) : Prop :=
  match ev with
  | EvAllowNsOp _ cap =>
      AllocID req ≠ EmptyString ∧
      (cap = NamespaceCapabilityAllocNodeExec →
       Task req ≠ EmptyString ∧ Cmd req ≠ [])
  | EvHandler _ _ => False
  | _ => True
  end.

(** The same for a whole run of [execImpl]: the handler is called with the
    command of the request, once all three arguments are known to be
    non-empty. *)
Definition request_invariant (req : AllocExecRequest) (ev : Event) : Prop :=
  match ev with
  | EvAllowNsOp _ cap =>
      AllocID req ≠ EmptyString ∧
      (cap = NamespaceCapabilityAllocNodeExec →
       Task req ≠ EmptyString ∧ Cmd req ≠ [])
  | EvHandler cmd tty =>
      cmd = Cmd req ∧ tty = Tty req ∧ cmd ≠ [] ∧
      AllocID req ≠ EmptyString ∧ Task req ≠ EmptyString
  | _ => True
  end.

(** The invariant as the specification words it: at every capability check
    the allocation ID and the task name are non-empty, and at the call of the
    handler the command is non-empty. *)
Definition request_invariant_as_specified (req : AllocExecRequest) (ev : Event) : Prop :=
  match ev with
  | EvAllowNsOp _ _ => AllocID req ≠ EmptyString ∧ Task req ≠ EmptyString
  | EvHandler cmd _ => cmd ≠ []
  | _ => True
  end.

Definition is_log (ev : Event) : Prop :=
  match ev with
  | EvLog _ _ => True
  | _ => False
  end.

(** An envelope that is a normal data frame: both error fields are absent. *)
Definition no_error_fields (w : StreamErrWrapper) : Prop :=
  ErrorMessage w = None ∧ ErrorCode w = None.

(** The next write on the connection succeeds. *)
Definition write_succeeds (c : Conn) : Prop :=
  match conn_faults c with
  | Some _ :: _ => False
  | _ => True
  end.

(** Modelled from the spec: the receiving end of the stream is not part of
    the sources at hand.  The counterpart reads one envelope off the wire
    and, when its error fields are empty, decodes the payload with the inner
    encoding. *)
Definition counterpartRecv
    (decodeWrapper : list byte -> option (StreamErrWrapper * list byte))
    (decodeFrame : list byte -> option ExecTaskStreamingResponseMsg)
    (wire : list byte)
  : option (StreamErrWrapper * option ExecTaskStreamingResponseMsg * list byte) :=
  match decodeWrapper wire with
  | None => None
  | Some (w, rest) =>
      match ErrorMessage w, ErrorCode w with
      | None, None => Some (w, decodeFrame (Payload w), rest)
      | _, _ => Some (w, None, rest)
      end
  end.

(** ** A node and a wire format to run the endpoint on

    A small length-prefixed wire format standing in for the codec handles,
    and a node with one allocation, used to run the definitions above. *)
Module Fixture.

Definition byteOfNat (n : nat) : byte := default Byte.x00 (Byte.of_nat n).

Definition putLen (n : nat) : list byte := [byteOfNat n].

Definition putBytes (bs : list byte) : list byte := putLen (length bs) ++ bs.

Definition putString (s : string) : list byte :=
  putBytes (String.list_byte_of_string s).

Definition putBool (b : bool) : list byte :=
  [if b then Byte.x01 else Byte.x00].

Definition putOpt {A : Type} (put : A -> list byte) (o : option A) : list byte :=
  match o with
  | None => [Byte.x00]
  | Some v => Byte.x01 :: put v
  end.

(** Integers from 0 to 65535, big endian on two bytes. *)
Definition putZ (z : Z) : list byte :=
  [byteOfNat (Z.to_nat (z / 256)); byteOfNat (Z.to_nat (z mod 256))].

Definition putPair (p : Z * Z) : list byte := putZ p.1 ++ putZ p.2.

Definition putList {A : Type} (put : A -> list byte) (l : list A) : list byte :=
  putLen (length l) ++ concat (map put l).

Definition Parser (A : Type) : Type := list byte -> option (A * list byte).

Definition getLen : Parser nat := fun bs =>
  match bs with
  | b :: r => Some (Byte.to_nat b, r)
  | [] => None
  end.

Definition getBytes : Parser (list byte) := fun bs =>
  match getLen bs with
  | Some (n, r) =>
      if decide (n ≤ length r)%nat then Some (take n r, drop n r) else None
  | None => None
  end.

Definition getString : Parser string := fun bs =>
  match getBytes bs with
  | Some (s, r) => Some (String.string_of_list_byte s, r)
  | None => None
  end.

Definition getBool : Parser bool := fun bs =>
  match bs with
  | b :: r => Some (negb (Byte.eqb b Byte.x00), r)
  | [] => None
  end.

Definition getOpt {A : Type} (get : Parser A) : Parser (option A) := fun bs =>
  match getBool bs with
  | Some (false, r) => Some (None, r)
  | Some (true, r) =>
      match get r with
      | Some (v, r') => Some (Some v, r')
      | None => None
      end
  | None => None
  end.

Definition getZ : Parser Z := fun bs =>
  match bs with
  | hi :: lo :: r => Some (Z.of_nat (Byte.to_nat hi) * 256 + Z.of_nat (Byte.to_nat lo), r)
  | _ => None
  end.

Definition getPair : Parser (Z * Z) := fun bs =>
  match getZ bs with
  | Some (h, r) =>
      match getZ r with
      | Some (w, r') => Some ((h, w), r')
      | None => None
      end
  | None => None
  end.

Fixpoint getItems {A : Type} (get : Parser A) (n : nat) : Parser (list A) := fun bs =>
  match n with
  | O => Some ([], bs)
  | S n' =>
      match get bs with
      | Some (x, r) =>
          match getItems get n' r with
          | Some (xs, r') => Some (x :: xs, r')
          | None => None
          end
      | None => None
      end
  end.

Definition getList {A : Type} (get : Parser A) : Parser (list A) := fun bs =>
  match getLen bs with
  | Some (n, r) => getItems get n r
  | None => None
  end.

Definition errEOF : Error := errorString "EOF".
Definition errUnexpectedEOF : Error := errorString "unexpected EOF".

(** The caller's side of the first message. *)
Definition writeRequest (req : AllocExecRequest) : list byte :=
  putString (AllocID req) ++ putString (Task req) ++ putBool (Tty req) ++
  putList putString (Cmd req) ++ putString (AuthToken req).

(** Decoding stores field after field into the value it is given; when the
    input ends early the fields read so far stay stored. *)
Definition readRequest (input : list byte) (req : AllocExecRequest)
  : AllocExecRequest * option Error * list byte :=
  match input with
  | [] => (req, Some errEOF, [])
  | _ =>
  match getString input with
  | None => (req, Some errUnexpectedEOF, [])
  | Some (id, r1) =>
  let req := mkAllocExecRequest id (Task req) (Tty req) (Cmd req) (AuthToken req) in
  match getString r1 with
  | None => (req, Some errUnexpectedEOF, [])
  | Some (task, r2) =>
  let req := mkAllocExecRequest (AllocID req) task (Tty req) (Cmd req) (AuthToken req) in
  match getBool r2 with
  | None => (req, Some errUnexpectedEOF, [])
  | Some (tty, r3) =>
  let req := mkAllocExecRequest (AllocID req) (Task req) tty (Cmd req) (AuthToken req) in
  match getList getString r3 with
  | None => (req, Some errUnexpectedEOF, [])
  | Some (cmd, r4) =>
  let req := mkAllocExecRequest (AllocID req) (Task req) (Tty req) cmd (AuthToken req) in
  match getString r4 with
  | None => (req, Some errUnexpectedEOF, [])
  | Some (tok, r5) =>
      (mkAllocExecRequest (AllocID req) (Task req) (Tty req) (Cmd req) tok, None, r5)
  end end end end end end.

(** The caller's side of an input frame. *)
Definition writeInput (m : ExecTaskStreamingRequestMsg) : list byte :=
  putOpt putBytes (Stdin m) ++ putOpt putPair (TtySize m) ++ putOpt putBool (Close m).

Definition readInput (input : list byte) (m : ExecTaskStreamingRequestMsg)
  : ExecTaskStreamingRequestMsg * option Error * list byte :=
  match input with
  | [] => (m, Some errEOF, [])
  | _ =>
  match getOpt getBytes input with
  | None => (m, Some errUnexpectedEOF, [])
  | Some (stdin, r1) =>
  let m := mkRequestMsg stdin (TtySize m) (Close m) in
  match getOpt getPair r1 with
  | None => (m, Some errUnexpectedEOF, [])
  | Some (size, r2) =>
  let m := mkRequestMsg (Stdin m) size (Close m) in
  match getOpt getBool r2 with
  | None => (m, Some errUnexpectedEOF, [])
  | Some (close, r3) => (mkRequestMsg (Stdin m) (TtySize m) close, None, r3)
  end end end end.

Definition writeWrapper (w : StreamErrWrapper) : list byte :=
  putBytes (Payload w) ++ putOpt putString (ErrorMessage w) ++ putOpt putZ (ErrorCode w).

Definition readWrapper : Parser StreamErrWrapper := fun bs =>
  match getBytes bs with
  | Some (payload, r1) =>
      match getOpt getString r1 with
      | Some (msg, r2) =>
          match getOpt getZ r2 with
          | Some (code, r3) => Some (mkStreamErrWrapper payload msg code, r3)
          | None => None
          end
      | None => None
      end
  | None => None
  end.

Definition writeFrame (m : ExecTaskStreamingResponseMsg) : list byte :=
  putOpt putBytes (Stdout m) ++ putOpt putBytes (Stderr m) ++
  putBool (Exited m) ++ putOpt putZ (ExitCode m).

Definition readFrame (bs : list byte) : option ExecTaskStreamingResponseMsg :=
  match getOpt getBytes bs with
  | Some (out, r1) =>
      match getOpt getBytes r1 with
      | Some (err, r2) =>
          match getBool r2 with
          | Some (exited, r3) =>
              match getOpt getZ r3 with
              | Some (code, []) => Some (mkResponseMsg out err exited code)
              | _ => None
              end
          | None => None
          end
      | None => None
      end
  | None => None
  end.

#[export] Instance codec : Codec := {|
  decodeRequest := readRequest;
  decodeInput := readInput;
  encodeWrapper := writeWrapper;
  encodeFrame := writeFrame
|}.

#[export] Instance errorText : ErrorText := fun e =>
  match e with
  | ErrPermissionDenied => "Permission denied"
  | allocIDNotPresentErr => "must provide a valid alloc id"
  | taskNotPresentErr => "must provide task name"
  | errorString msg => msg
  end.

(** The node: one allocation "a1" in namespace "default" with the tasks
    "web" (isolated, running), "raw" (no isolation, running), "broken"
    (running, its handler fails), "idle" (started, no exec handler), "new"
    (not started yet) and "late" (known to the runner, no state recorded
    yet). *)

Definition dq : string := String (Ascii.ascii_of_nat 34) EmptyString.

Definition quoted (s : string) : string := dq +:+ s +:+ dq.

Definition started : Time := mkTime 63800000000 0.
Definition never : Time := mkTime 0 0.

Definition hi : list byte := String.list_byte_of_string "hi".

(** Writes "hi" on stdout, then the exit event. *)
Definition echoHandler : TaskExecHandler := fun _ _ =>
  HSend (mkResponseMsg (Some hi) None false None) (fun e1 =>
    match e1 with
    | Some e => HReturn (Some e)
    | None => HSend (mkResponseMsg None None true (Some 0)) (fun e2 => HReturn e2)
    end).

(** Writes one chunk and then fails. *)
Definition failingHandler : TaskExecHandler := fun _ _ =>
  HSend (mkResponseMsg None (Some hi) false None) (fun _ =>
    HReturn (Some (errorString "exec failed"))).

Definition knownTasks : list string :=
  ["web"; "raw"; "broken"; "idle"; "new"; "late"].

Definition ar1 : AllocRunner := {|
  Alloc := mkAllocation "default";
  GetTaskDriverCapabilities := fun task =>
    if String.eqb task "raw" then inr (mkCapabilities "none")
    else if bool_decide (task ∈ knownTasks) then inr (mkCapabilities "chroot")
    else inl (errorString "task not found");
  GetTaskExecHandler := fun task =>
    if String.eqb task "web" then Some echoHandler
    else if String.eqb task "raw" then Some echoHandler
    else if String.eqb task "broken" then Some failingHandler
    else None
|}.

Definition taskStates : gmap string (option TaskState) :=
  list_to_map [
    ("web", Some (mkTaskState started));
    ("raw", Some (mkTaskState started));
    ("broken", Some (mkTaskState started));
    ("idle", Some (mkTaskState started));
    ("new", Some (mkTaskState never))
  ].

Definition errUnknownAlloc (id : string) : Error :=
  errorString ("Unknown allocation " +:+ quoted id).

(** Tokens: "exec" grants alloc-exec in "default", "node" grants
    alloc-node-exec as well, "read" grants neither; no token at all is the
    implicitly trusted caller. *)
Definition execACL : ACL :=
  mkACL (fun ns cap => String.eqb ns "default" && String.eqb cap "alloc-exec").

Definition nodeACL : ACL :=
  mkACL (fun ns cap =>
    String.eqb ns "default" &&
    (String.eqb cap "alloc-exec" || String.eqb cap "alloc-node-exec")).

Definition readACL : ACL := mkACL (fun _ _ => false).

Definition node (disabled : bool) : Client := {|
  DisableRemoteExec := disabled;
  getAllocRunner := fun id =>
    if String.eqb id "a1" then inr ar1
    else if String.eqb id "a2" then inl (errorString "alloc runner is shutting down")
    else inl (errUnknownAlloc id);
  resolveTokenAndACL := fun tok =>
    if String.eqb tok EmptyString then (None, None, None)
    else if String.eqb tok "exec" then (Some execACL, Some (mkACLToken "dev" "acc-1"), None)
    else if String.eqb tok "node" then (Some nodeACL, Some (mkACLToken "ops" "acc-2"), None)
    else if String.eqb tok "read" then (Some readACL, Some (mkACLToken "viewer" "acc-3"), None)
    else (None, None, Some (errorString "ACL token not found"));
  GetAllocState := fun id =>
    if String.eqb id "a1" then inr (mkAllocState taskStates)
    else inl (errUnknownAlloc id);
  IsErrUnknownAllocation := fun e =>
    match e with
    | errorString msg => String.prefix "Unknown allocation" msg
    | _ => false
    end;
  quote := quoted
|}.

(** A fresh connection carrying [input], with nothing logged yet. *)
Definition fresh (input : list byte) : State :=
  mkState (mkConn input [] [] false) [].

(** A fresh connection carrying the request [req]. *)
Definition incoming (req : AllocExecRequest) : State :=
  fresh (writeRequest req).

Definition request (alloc task : string) (cmd : list string) (tok : string)
  : AllocExecRequest :=
  mkAllocExecRequest alloc task false cmd tok.

Definition echo : list string := ["/bin/echo"; "hi"].

End Fixture.

(** ** A connection without refusals *)

(** The connection refuses none of the writes to come. *)
Definition accepts_writes (c : Conn) : Prop :=
  Forall (λ f, f = None) (conn_faults c).

(** ** A total wire format

    Modelled from the spec: the two encodings of the codec library and the
    decoders of the receiving end are not part of the sources at hand.  The
    spec gives what they carry, the envelope [{payload, errorMessage?,
    errorCode?}] and the output frame [{stdout?, stderr?, exited,
    exitCode?}], and asks that the counterpart reads every frame the agent
    sent as an identical frame.  This format writes those fields one after
    the other, each of them self-delimiting, for byte strings and integers of
    any size. *)
Module Wire.

(** A byte string: every byte behind a 01 mark, closed by 00. *)
Fixpoint putChunk (bs : list byte) : list byte :=
  match bs with
  | [] => [Byte.x00]
  | b :: r => Byte.x01 :: b :: putChunk r
  end.

Fixpoint getChunk (bs : list byte) : option (list byte * list byte) :=
  match bs with
  | [] => None
  | t :: r =>
      if Byte.eqb t Byte.x00 then Some ([], r)
      else if Byte.eqb t Byte.x01 then
        match r with
        | [] => None
        | b :: r' =>
            match getChunk r' with
            | Some (l, rest) => Some (b :: l, rest)
            | None => None
            end
        end
      else None
  end.

(** A positive number: its binary digits from the lowest, 01 for a zero
    digit and 02 for a one digit, closed by 00 for the leading one. *)
Fixpoint putPos (p : positive) : list byte :=
  match p with
  | xH => [Byte.x00]
  | xO q => Byte.x01 :: putPos q
  | xI q => Byte.x02 :: putPos q
  end.

Fixpoint getPos (bs : list byte) : option (positive * list byte) :=
  match bs with
  | [] => None
  | t :: r =>
      if Byte.eqb t Byte.x00 then Some (xH, r)
      else if Byte.eqb t Byte.x01 then
        match getPos r with
        | Some (q, rest) => Some (xO q, rest)
        | None => None
        end
      else if Byte.eqb t Byte.x02 then
        match getPos r with
        | Some (q, rest) => Some (xI q, rest)
        | None => None
        end
      else None
  end.

(** An integer: 00 for zero, 01 or 02 for the sign, then the magnitude. *)
Definition putInt (z : Z) : list byte :=
  match z with
  | Z0 => [Byte.x00]
  | Zpos p => Byte.x01 :: putPos p
  | Zneg p => Byte.x02 :: putPos p
  end.

Definition getInt (bs : list byte) : option (Z * list byte) :=
  match bs with
  | [] => None
  | t :: r =>
      if Byte.eqb t Byte.x00 then Some (Z0, r)
      else if Byte.eqb t Byte.x01 then
        match getPos r with
        | Some (p, rest) => Some (Zpos p, rest)
        | None => None
        end
      else if Byte.eqb t Byte.x02 then
        match getPos r with
        | Some (p, rest) => Some (Zneg p, rest)
        | None => None
        end
      else None
  end.

Definition putText (s : string) : list byte :=
  putChunk (String.list_byte_of_string s).

Definition getText (bs : list byte) : option (string * list byte) :=
  match getChunk bs with
  | Some (l, rest) => Some (String.string_of_list_byte l, rest)
  | None => None
  end.

Definition putFlag (b : bool) : list byte :=
  [if b then Byte.x01 else Byte.x00].

Definition getFlag (bs : list byte) : option (bool * list byte) :=
  match bs with
  | [] => None
  | t :: r =>
      if Byte.eqb t Byte.x00 then Some (false, r)
      else if Byte.eqb t Byte.x01 then Some (true, r)
      else None
  end.

(** An optional field: 00 when absent, 01 and the field when present. *)
Definition putMaybe {A : Type} (put : A -> list byte) (o : option A) : list byte :=
  match o with
  | None => [Byte.x00]
  | Some v => Byte.x01 :: put v
  end.

Definition getMaybe {A : Type} (get : list byte -> option (A * list byte))
    (bs : list byte) : option (option A * list byte) :=
  match bs with
  | [] => None
  | t :: r =>
      if Byte.eqb t Byte.x00 then Some (None, r)
      else if Byte.eqb t Byte.x01 then
        match get r with
        | Some (v, rest) => Some (Some v, rest)
        | None => None
        end
      else None
  end.

(** The inner encoding of an output frame. *)
Definition writeFrame (m : ExecTaskStreamingResponseMsg) : list byte :=
  putMaybe putChunk (Stdout m) ++ putMaybe putChunk (Stderr m) ++
  putFlag (Exited m) ++ putMaybe putInt (ExitCode m).

Definition readFrame (bs : list byte) : option ExecTaskStreamingResponseMsg :=
  match getMaybe getChunk bs with
  | Some (out, r1) =>
      match getMaybe getChunk r1 with
      | Some (err, r2) =>
          match getFlag r2 with
          | Some (exited, r3) =>
              match getMaybe getInt r3 with
              | Some (code, []) => Some (mkResponseMsg out err exited code)
              | _ => None
              end
          | None => None
          end
      | None => None
      end
  | None => None
  end.

(** The encoding of an envelope. *)
Definition writeWrapper (w : StreamErrWrapper) : list byte :=
  putChunk (Payload w) ++ putMaybe putText (ErrorMessage w) ++
  putMaybe putInt (ErrorCode w).

Definition readWrapper (bs : list byte) : option (StreamErrWrapper * list byte) :=
  match getChunk bs with
  | Some (payload, r1) =>
      match getMaybe getText r1 with
      | Some (msg, r2) =>
          match getMaybe getInt r2 with
          | Some (code, r3) => Some (mkStreamErrWrapper payload msg code, r3)
          | None => None
          end
      | None => None
      end
  | None => None
  end.

(** The agent's side with this format; the first message and the input
    frames are read as on the fixture node. *)
Definition codec : Codec := {|
  decodeRequest := Fixture.readRequest;
  decodeInput := Fixture.readInput;
  encodeWrapper := writeWrapper;
  encodeFrame := writeFrame
|}.

End Wire.

(** ** Further observations on a run *)

Definition is_handler_call (ev : Event) : bool :=
  match ev with
  | EvHandler _ _ => true
  | _ => false
  end.

Definition is_capability_check (ev : Event) : bool :=
  match ev with
  | EvAllowNsOp _ _ => true
  | _ => false
  end.

Definition is_session_starting (ev : Event) : bool :=
  match ev with
  | EvSessionStarting _ _ _ _ _ _ _ => true
  | _ => false
  end.

Definition is_cancel (ev : Event) : bool :=
  match ev with
  | EvCtxCancel => true
  | _ => false
  end.

(** How many of the events satisfy [f]. *)
Definition count (f : Event -> bool) (evs : list Event) : nat :=
  length (List.filter f evs).

(** The status codes [execImpl] uses. *)
Definition status_vocabulary (code : option Z) : Prop :=
  code = None ∨ code = Some 400 ∨ code = Some 404 ∨ code = Some 500.

(** The envelope [Send] builds around a frame. *)
Definition frameEnvelope `{Codec} (m : ExecTaskStreamingResponseMsg) : StreamErrWrapper :=
  mkStreamErrWrapper (encodeFrame m) None None.

(** The frames a handler passes to [Send], in the order of the calls. *)
Fixpoint sentFrames `{Codec} (p : HandlerProg) (s : execStream) (st : State)
  : list ExecTaskStreamingResponseMsg :=
  match p with
  | HReturn _ => []
  | HSend m k =>
      let '(s', st', err) := Send s m st in
      m :: sentFrames (k err) s' st'
  | HRecv k =>
      let '(req, err, st') := Recv s st in
      sentFrames (k req err) s st'
  end.

(** The identity the audit record carries for a resolved token. *)
Definition tokenIdentity (token : option ACLToken) : string * string :=
  match token with
  | Some t => (Name t, AccessorID t)
  | None => (EmptyString, EmptyString)
  end.

(** The alloc-exec check lets the caller through: there is no capability set,
    or it grants "alloc-exec" in the namespace. *)
Definition allocExecAllowed (aclObj : option ACL) (ns : string) : Prop :=
  match aclObj with
  | Some o => AllowNsOp o ns NamespaceCapabilityAllocExec = true
  | None => True
  end.

(** The node access check lets the caller through: there is no capability
    set, or the task is isolated, or the set grants "alloc-node-exec" in the
    namespace. *)
Definition allocNodeExecAllowed (aclObj : option ACL) (ns : string)
    (capabilities : Capabilities) : Prop :=
  match aclObj with
  | Some o =>
      FSIsolation capabilities = FSIsolationNone →
      AllowNsOp o ns NamespaceCapabilityAllocNodeExec = true
  | None => True
  end.

(** The conditions under which the first part of [execImpl] goes on, with
    what it hands to the second part. *)
Definition accepted `{Codec} (a : Client) (st : State) (v : Validated) : Prop :=
  ∃ rest token,
    decodeRequest (conn_in (st_conn st)) zeroAllocExecRequest = (v_req v, None, rest) ∧
    DisableRemoteExec a = false ∧
    AllocID (v_req v) ≠ EmptyString ∧
    getAllocRunner a (AllocID (v_req v)) = inr (v_ar v) ∧
    resolveTokenAndACL a (AuthToken (v_req v)) = (v_aclObj v, token, None) ∧
    allocExecAllowed (v_aclObj v) (Namespace (Alloc (v_ar v))) ∧
    Task (v_req v) ≠ EmptyString ∧
    Cmd (v_req v) ≠ [] ∧
    GetTaskDriverCapabilities (v_ar v) (Task (v_req v)) = inr (v_capabilities v) ∧
    allocNodeExecAllowed (v_aclObj v) (Namespace (Alloc (v_ar v))) (v_capabilities v).

(** The conditions under which the second part of [execImpl] goes on with the
    handler [h]. *)
Definition located (a : Client) (v : Validated) (h : TaskExecHandler) : Prop :=
  ∃ allocState taskState,
    GetAllocState a (AllocID (v_req v)) = inr allocState ∧
    TaskStates allocState !! Task (v_req v) = Some (Some taskState) ∧
    IsZero (StartedAt taskState) = false ∧
    GetTaskExecHandler (v_ar v) (Task (v_req v)) = Some h.

(** ** The request/response endpoints

    [GarbageCollectAll], [GarbageCollect], [Signal], [Restart] and [Stats]
    answer one request with one error value.  The client is seen through the
    calls these endpoints make; what the calls do to the node is a change of
    an abstract node state. *)

(** [*acl.ACL] as these endpoints query it: the node-level write permission
    and the namespace capabilities. *)
Record ACLObject : Type := mkACLObject {
  AllowNodeWrite : bool;
  nsOps : ACL
}.

(** The namespace capabilities the endpoints ask for are constants of the
    [acl] package, declared outside these sources. *)
Class CapabilityNames : Type := {
  NamespaceCapabilitySubmitJob : string;
  NamespaceCapabilityAllocLifecycle : string;
  NamespaceCapabilityReadJob : string
}.

(** The per-allocation statistics handle returned by the stats reporter;
    [U] is [cstructs.AllocResourceUsage]. *)
Record AllocStatsReporter (U : Type) : Type := mkAllocStatsReporter {
  LatestAllocStats : string -> Error + option U
}.
Arguments mkAllocStatsReporter {U} _.
Arguments LatestAllocStats {U} _ _.

(** The calls on [a.c], on a node in state [S]. *)
Class NodeOps (S U : Type) : Type := {
  ResolveToken : string -> S -> option ACLObject * option Error;
  GetAlloc : string -> S -> Error + Allocation;
  CollectAllAllocs : S -> S;
  CollectAllocation : string -> S -> S * bool;
  SignalAllocation : string -> string -> string -> S -> S * option Error;
  RestartAllocation : string -> string -> S -> S * option Error;
  GetAllocStats : string -> S -> Error + AllocStatsReporter U
}.

(** [nstructs.NodeSpecificRequest], [nstructs.AllocSpecificRequest],
    [nstructs.AllocSignalRequest], [nstructs.AllocRestartRequest] and
    [cstructs.AllocStatsRequest], reduced to the fields the endpoints read
    (in Go the fields are [AllocID], [Task], [TaskName], [Signal] and
    [AuthToken] throughout). *)
Record NodeSpecificRequest : Type := mkNodeSpecificRequest {
  node_AuthToken : string
}.

Record AllocSpecificRequest : Type := mkAllocSpecificRequest {
  gc_AllocID : string;
  gc_AuthToken : string
}.

Record AllocSignalRequest : Type := mkAllocSignalRequest {
  sig_AllocID : string;
  sig_Task : string;
  sig_Signal : string;
  sig_AuthToken : string
}.

Record AllocRestartRequest : Type := mkAllocRestartRequest {
  restart_AllocID : string;
  restart_TaskName : string;
  restart_AuthToken : string
}.

Record AllocStatsRequest : Type := mkAllocStatsRequest {
  stats_AllocID : string;
  stats_Task : string;
  stats_AuthToken : string
}.

(** [cstructs.AllocStatsResponse]. *)
Record AllocStatsResponse (U : Type) : Type := mkAllocStatsResponse {
  reply_Stats : option U
}.
Arguments mkAllocStatsResponse {U} _.
Arguments reply_Stats {U} _.

Section RequestEndpoints.

Context {S U : Type} `{NodeOps S U} `{CapabilityNames}.

(** [aclObj != nil && !aclObj.AllowNsOp(ns, cap)]. *)
Definition nsOpDenied (aclObj : option ACLObject) (ns cap : string) : bool :=
  match aclObj with
  | Some o => negb (AllowNsOp (nsOps o) ns cap)
  | None => false
  end.

(** [GarbageCollectAll] is used to garbage collect all allocations on a
    client. *)
Definition GarbageCollectAll (args : NodeSpecificRequest) (s : S) : S * option Error :=
  (* Check node write permissions *)
  match ResolveToken (node_AuthToken args) s with
  | (_, Some err) => (s, Some err)
  | (aclObj, None) =>
      if match aclObj with
         | Some o => negb (AllowNodeWrite o)
         | None => false
         end
      then (s, Some ErrPermissionDenied)
      else (CollectAllAllocs s, None)
  end.

(** [GarbageCollect] is used to garbage collect an allocation on a client. *)
Definition GarbageCollect (args : AllocSpecificRequest) (s : S) : S * option Error :=
  match GetAlloc (gc_AllocID args) s with
  | inl err => (s, Some err)
  | inr alloc =>
      (* Check namespace submit job permission. *)
      match ResolveToken (gc_AuthToken args) s with
      | (_, Some err) => (s, Some err)
      | (aclObj, None) =>
          if nsOpDenied aclObj (Namespace alloc) NamespaceCapabilitySubmitJob
          then (s, Some ErrPermissionDenied)
          else
            let '(s', collected) := CollectAllocation (gc_AllocID args) s in
            if negb collected
            then (s', Some (errorString
                    "No such allocation on client, or allocation not eligible for GC"))
            else (s', None)
      end
  end.

(** [Signal] is used to send a signal to an allocation's tasks on a client. *)
Definition Signal (args : AllocSignalRequest) (s : S) : S * option Error :=
  match GetAlloc (sig_AllocID args) s with
  | inl err => (s, Some err)
  | inr alloc =>
      (* Check namespace alloc-lifecycle permission. *)
      match ResolveToken (sig_AuthToken args) s with
      | (_, Some err) => (s, Some err)
      | (aclObj, None) =>
          if nsOpDenied aclObj (Namespace alloc) NamespaceCapabilityAllocLifecycle
          then (s, Some ErrPermissionDenied)
          else SignalAllocation (sig_AllocID args) (sig_Task args) (sig_Signal args) s
      end
  end.

(** [Restart] is used to trigger a restart of an allocation or a subtask on
    a client. *)
Definition Restart (args : AllocRestartRequest) (s : S) : S * option Error :=
  match GetAlloc (restart_AllocID args) s with
  | inl err => (s, Some err)
  | inr alloc =>
      (* Check namespace alloc-lifecycle permission. *)
      match ResolveToken (restart_AuthToken args) s with
      | (_, Some err) => (s, Some err)
      | (aclObj, None) =>
          if nsOpDenied aclObj (Namespace alloc) NamespaceCapabilityAllocLifecycle
          then (s, Some ErrPermissionDenied)
          else RestartAllocation (restart_AllocID args) (restart_TaskName args) s
      end
  end.

(** [Stats] is used to collect allocation statistics; it reads the node and
    writes its reply. *)
Definition Stats (args : AllocStatsRequest) (reply : AllocStatsResponse U) (s : S)
  : AllocStatsResponse U * option Error :=
  match GetAlloc (stats_AllocID args) s with
  | inl err => (reply, Some err)
  | inr alloc =>
      (* Check read-job permission. *)
      match ResolveToken (stats_AuthToken args) s with
      | (_, Some err) => (reply, Some err)
      | (aclObj, None) =>
          if nsOpDenied aclObj (Namespace alloc) NamespaceCapabilityReadJob
          then (reply, Some ErrPermissionDenied)
          else
            match GetAllocStats (stats_AllocID args) s with
            | inl err => (reply, Some err)
            | inr aStats =>
                match LatestAllocStats aStats (stats_Task args) with
                | inl err => (reply, Some err)
                | inr stats => (mkAllocStatsResponse stats, None)
                end
            end
      end
  end.

(** The caller may act on the namespace: the allocation is on the node, the
    token resolves, and there is no capability set or it grants [cap] in the
    allocation's namespace. *)
Definition mayActOn (allocID tok cap : string) (s : S) : Prop :=
  ∃ alloc aclObj,
    GetAlloc allocID s = inr alloc ∧
    ResolveToken tok s = (aclObj, None) ∧
    nsOpDenied aclObj (Namespace alloc) cap = false.

End RequestEndpoints.

(** ** The Nix task hook

    [nixHook.Prestart] with [install], [profileInstall] and [requisites], of
    [client/allocrunner/taskrunner/nix_hook.go].  The host (file system,
    users, the nix commands) is seen through the calls the hook makes; each
    call is a change of an abstract host state.  The walk of a store path
    with the [installAll] callback is one such call. *)

(** A value of the task's [Config map[string]interface{}], by its dynamic
    type: a string, a bool, a [[]interface{}], or anything else. *)
#[warnings="-register-all"]
Inductive ConfigValue : Type :=
  | CVString (s : string)
  | CVBool (b : bool)
  | CVList (vs : list ConfigValue)
  | CVOther (repr : string).

(** The verbs of [fmt] used in the hook's errors. *)
Class Fmt : Type := {
  fmt_v : ConfigValue -> string;     (* %v of a config value *)
  fmt_d : nat -> string;             (* %d of a slice index *)
  fmt_q : string -> string           (* %q of a string *)
}.

(** [drivers.MountConfig]. *)
Record MountConfig : Type := mkMountConfig {
  TaskPath : string;
  HostPath : string;
  Readonly : bool;
  PropagationMode : string
}.

(** [interfaces.TaskPrestartRequest], reduced to [req.Task.Config],
    [req.Task.User] and [req.TaskDir.Dir]. *)
Record TaskPrestartRequest : Type := mkTaskPrestartRequest {
  Config : gmap string ConfigValue;
  User : string;
  Dir : string
}.

(** [interfaces.TaskPrestartResponse], reduced to the fields the hook
    writes. *)
Record TaskPrestartResponse : Type := mkTaskPrestartResponse {
  Mounts : list MountConfig;
  Done : bool
}.

(** [user.User], reduced to the fields the hook reads. *)
Record OSUser : Type := mkOSUser {
  Uid : string;
  Gid : string
}.

(** What the hook reports: its log lines and the task events it emits. *)
Inductive HookEvent : Type :=
  | HookDebug (msg : string)
  | HookError (msg : string)
  | HookEmit (event message : string).

(** The host as the hook calls it. *)
Class Host (W : Type) : Type := {
  filepath_Join : string -> string -> string;
  os_Stat : string -> W -> option Error;
  os_MkdirAll : string -> Z -> W -> W * option Error;
  os_Chown : string -> Z -> Z -> W -> W * option Error;
  filepath_EvalSymlinks : string -> W -> Error + string;
  (* exec.Command(name, args...).CombinedOutput() and .Output() *)
  exec_CombinedOutput : string -> list string -> W -> W * string * option Error;
  exec_Output : string -> list string -> W -> W * string * option Error;
  cmd_String : string -> list string -> string;
  strings_Fields : string -> list string;
  (* filepath.Walk(root, installAll(logger, targetDir, truncate, link, uid, gid)) *)
  walk_installAll : string -> string -> bool -> bool -> Z -> Z -> W -> W * option Error;
  users_Lookup : string -> W -> Error + OSUser;
  users_Nobody : W -> Error + OSUser;
  strconv_Atoi : string -> Error + Z
}.

(** The state a hook call threads: the host and what was reported. *)
Record HookState (W : Type) : Type := mkHookState {
  host : W;
  reported : list HookEvent
}.
Arguments mkHookState {W} _ _.
Arguments host {W} _.
Arguments reported {W} _.

Section NixHook.

Context {W : Type} `{Host W} `{Fmt} `{ErrorText}.

Definition report (ev : HookEvent) (st : HookState W) : HookState W :=
  mkHookState (host st) (reported st ++ [ev]).

Definition set_host (w : W) (st : HookState W) : HookState W :=
  mkHookState w (reported st).

(** The loop of [getStrArr]: every element must be a string; [i] is the
    index of the first element of [vs]. *)
Fixpoint getStrArr_loop (key : string) (i : nat) (vs : list ConfigValue)
    (arr : list string) : Error + list string :=
  match vs with
  | [] => inr arr
  | vv :: vs' =>
      match vv with
      | CVString vvs => getStrArr_loop key (S i) vs' (arr ++ [vvs])
      | _ =>
          inl (errorString
                 (key +:+ "[" +:+ fmt_d i +:+ "] is not a string: " +:+ fmt_v vv))
      end
  end.

(** [getStrArr]: the list of strings under [key]; a missing key gives the nil
    slice. *)
Definition getStrArr (config : gmap string ConfigValue) (key : string)
  : Error + list string :=
  match config !! key with
  | None => inr []
  | Some v =>
      match v with
      | CVList vs => getStrArr_loop key 0 vs []
      | _ => inl (errorString (key +:+ " is not a list: " +:+ fmt_v v))
      end
  end.

(** [profileInstall]: one [nix profile install] into the profile at
    [linkPath]. *)
Definition profileInstall (linkPath installable : string) (extraArgs : list string)
    (st : HookState W) : HookState W * option Error :=
  let st := report (HookDebug "Building") st in
  let st := report (HookEmit "Nix" ("building: " +:+ installable)) st in
  let args := ["profile"; "install"; "-L"; "--no-write-lock-file"; "--profile"; linkPath] in
  let args := (args ++ extraArgs) ++ [installable] in
  let '(w, output, err) := exec_CombinedOutput "nix" args (host st) in
  let st := set_host w st in
  let st := report (HookDebug (cmd_String "nix" args)) st in
  match err with
  | Some e =>
      let st := report (HookError (cmd_String "nix" args)) st in
      let st := report (HookEmit "Nix"
                  ("build failed with error: " +:+ Error_text e +:+
                   " output: " +:+ output)) st in
      (st, Some e)
  | None => (st, None)
  end.

(** [requisites]: all store paths required to run the profile. *)
Definition requisites (outPath : string) (st : HookState W)
  : HookState W * (Error + list string) :=
  let args := ["--query"; "--requisites"; outPath] in
  let '(w, nixStoreOutput, err) := exec_Output "nix-store" args (host st) in
  let st := set_host w st in
  match err with
  | Some e => (report (HookError (cmd_String "nix-store" args)) st, inl e)
  | None => (st, inr (strings_Fields nixStoreOutput))
  end.

(** The loop of [install] over the installables. *)
Fixpoint profileInstallEach (linkPath : string) (installables extraArgs : list string)
    (st : HookState W) : HookState W * option Error :=
  match installables with
  | [] => (st, None)
  | installable :: rest =>
      match profileInstall linkPath installable extraArgs st with
      | (st', Some e) => (st', Some e)
      | (st', None) => profileInstallEach linkPath rest extraArgs st'
      end
  end.

(** The loop of [install] over the requisites. *)
Fixpoint copyEach (taskDir : string) (uid gid : Z) (reqs : list string)
    (st : HookState W) : HookState W * option Error :=
  match reqs with
  | [] => (st, None)
  | requisit :: rest =>
      let st := report (HookDebug "copying") st in
      match walk_installAll requisit taskDir false false uid gid (host st) with
      | (w, Some e) => (set_host w st, Some e)
      | (w, None) => copyEach taskDir uid gid rest (set_host w st)
      end
  end.

(** [install]. *)
Definition install (installables profileInstallArgs : list string) (taskDir : string)
    (mounted : bool) (uid gid : Z) (st : HookState W) : HookState W * option Error :=
  let linkPath := filepath_Join taskDir "current-alloc" in
  match os_Stat linkPath (host st) with
  | None => (st, None)
  | Some _ =>
  let st := report (HookDebug "Building") st in
  let st := report (HookEmit "Nix"
              ("building: " +:+ String.concat " " installables)) st in
  match profileInstallEach linkPath installables profileInstallArgs st with
  | (st, Some e) => (st, Some e)
  | (st, None) =>
  match
    (if negb mounted then
       match requisites linkPath st with
       | (st, inl e) => (st, Some e)
       | (st, inr reqs) =>
           (* Now copy each dependency into the allocation /nix/store directory *)
           copyEach taskDir uid gid reqs st
       end
     else (st, None))
  with
  | (st, Some e) => (st, Some e)
  | (st, None) =>
  match filepath_EvalSymlinks linkPath (host st) with
  | inl e => (st, Some e)
  | inr link =>
      let st := report (HookDebug "linking main drv paths") st in
      let '(w, err) := walk_installAll link taskDir true mounted uid gid (host st) in
      (set_host w st, err)
  end end end end.

(** The loop of [Prestart] that chowns the nix directories. *)
Fixpoint chownEach (dir : string) (uid gid : Z) (ps : list string) (w : W)
  : W * option Error :=
  match ps with
  | [] => (w, None)
  | p :: rest =>
      match os_Chown (dir +:+ p) uid gid w with
      | (w', Some e) => (w', Some e)
      | (w', None) => chownEach dir uid gid rest w'
      end
  end.

(** What [Prestart] does to the response on every return. *)
Definition markDone (resp : TaskPrestartResponse) : TaskPrestartResponse :=
  mkTaskPrestartResponse (Mounts resp) true.

(** [Prestart]. *)
Definition Prestart (req : TaskPrestartRequest) (resp : TaskPrestartResponse)
    (st : HookState W) : HookState W * TaskPrestartResponse * option Error :=
  match getStrArr (Config req) "nix_installables" with
  | inl err => (st, markDone resp, Some err)
  | inr installables =>
  if bool_decide (length installables = 0%nat) then (st, markDone resp, None) else
  match getStrArr (Config req) "nix_profile_install_args" with
  | inl err => (st, markDone resp, Some err)
  | inr profileInstallArgs =>
  match
    match Config req !! "nix_host" with
    | Some (CVBool true) =>
        inr (true,
             mkTaskPrestartResponse
               (Mounts resp ++ [mkMountConfig "/nix" "/nix" false "host-to-task"])
               (Done resp))
    | Some (CVBool false) => inr (false, resp)
    | Some v => inl (errorString ("nix_host is not a bool: " +:+ fmt_v v))
    | None => inr (false, resp)
    end
  with
  | inl err => (st, markDone resp, Some err)
  | inr (mount, resp) =>
  (* Default uid and gid of /nix to the task user or nobody. *)
  match
    (if negb (bool_decide (User req = EmptyString)) then
       match users_Lookup (User req) (host st) with
       | inl err =>
           inl (errorString ("Couldn't look up user " +:+ fmt_q (User req) +:+ ": " +:+
                             Error_text err))
       | inr user => inr user
       end
     else
       match users_Nobody (host st) with
       | inl err =>
           inl (errorString ("Couldn't look up nobody user: " +:+ Error_text err))
       | inr user => inr user
       end)
  with
  | inl err => (st, markDone resp, Some err)
  | inr user =>
  match strconv_Atoi (Uid user) with
  | inl err =>
      (st, markDone resp,
       Some (errorString ("Couldn't convert uid " +:+ fmt_q (Uid user) +:+ " to int: " +:+
                          Error_text err)))
  | inr uid =>
  match strconv_Atoi (Gid user) with
  | inl err =>
      (st, markDone resp,
       Some (errorString ("Couldn't convert gid " +:+ fmt_q (Gid user) +:+ " to int: " +:+
                          Error_text err)))
  | inr gid =>
  match install installables profileInstallArgs (Dir req) mount uid gid st with
  | (st, Some err) => (st, markDone resp, Some err)
  | (st, None) =>
  if negb mount then
    (* Create NIX_STATE_DIR so that nix recognizes /nix. *)
    match os_MkdirAll (Dir req +:+ "/nix/var/nix") 493 (host st) with
    | (w, Some err) => (set_host w st, markDone resp, Some err)
    | (w, None) =>
        (* Chown nix directories. *)
        let '(w', err) :=
          chownEach (Dir req) uid gid ["/nix/var/nix"; "/nix/var"; "/nix"; "/nix/store"] w in
        (set_host w' st, markDone resp, err)
    end
  else (st, markDone resp, None)
  end end end end end end end.

End NixHook.

(** ** The builds of [install], as the host and the task see them *)

Section NixBuilds.

Context {W : Type} `{Host W} `{ErrorText}.






End NixBuilds.

(** ** More of the node, and a host, to run the definitions on *)
Module Fixture2.

(** The allocation "a1" of [Fixture] with one more task, "ghost", whose
    entry in the task states holds no state; and an allocation "a3" whose
    runner is there while its state cannot be read. *)
Definition ar2 : AllocRunner := {|
  Alloc := mkAllocation "default";
  GetTaskDriverCapabilities := fun task =>
    if String.eqb task "ghost" then inr (mkCapabilities "chroot")
    else GetTaskDriverCapabilities Fixture.ar1 task;
  GetTaskExecHandler := GetTaskExecHandler Fixture.ar1
|}.

Definition taskStates2 : gmap string (option TaskState) :=
  <["ghost" := None]> Fixture.taskStates.

Definition node2 : Client := {|
  DisableRemoteExec := false;
  getAllocRunner := fun id =>
    if String.eqb id "a1" then inr ar2
    else if String.eqb id "a3" then inr ar2
    else inl (Fixture.errUnknownAlloc id);
  resolveTokenAndACL := resolveTokenAndACL (Fixture.node false);
  GetAllocState := fun id =>
    if String.eqb id "a1" then inr (mkAllocState taskStates2)
    else inl (Fixture.errUnknownAlloc id);
  IsErrUnknownAllocation := IsErrUnknownAllocation (Fixture.node false);
  quote := Fixture.quoted
|}.

(** A stream whose frame buffer still holds the bytes of an earlier frame. *)
Definition stale : execStream := mkExecStream [Byte.x01; Byte.x02].

(** The last frame of a session: 300 bytes of output and a large exit code. *)
Definition lastFrame : ExecTaskStreamingResponseMsg :=
  mkResponseMsg (Some (replicate 300 Byte.x41)) None true (Some 70000).

(** The exit event of a killed command. *)
Definition killedFrame : ExecTaskStreamingResponseMsg :=
  mkResponseMsg None (Some Fixture.hi) true (Some (-1)).

End Fixture2.

Module HookFixture.

(** Decimal digits of an index. *)
Fixpoint digits (fuel n : nat) (acc : string) : string :=
  match fuel with
  | O => acc
  | S fuel' =>
      let acc' := String (Ascii.ascii_of_nat (48 + n mod 10)) acc in
      if (n / 10 =? 0)%nat then acc' else digits fuel' (n / 10) acc'
  end.

#[export] Instance fmt : Fmt := {|
  fmt_v := fun v =>
    match v with
    | CVString s => s
    | CVBool true => "true"
    | CVBool false => "false"
    | CVList _ => "[...]"
    | CVOther repr => repr
    end;
  fmt_d := fun n => digits (S n) n EmptyString;
  fmt_q := Fixture.quoted
|}.

(** A host that is the list of the paths that exist on it; the nix commands
    create the profile they are given. *)
#[export] Instance hostOps : Host (list string) := {|
  filepath_Join := fun a b => a +:+ "/" +:+ b;
  os_Stat := fun p w =>
    if bool_decide (p ∈ w) then None else Some (errorString "no such file or directory");
  os_MkdirAll := fun p _ w => (p :: w, None);
  os_Chown := fun p _ _ w =>
    if bool_decide (p ∈ w) then (w, None)
    else (w, Some (errorString "no such file or directory"));
  filepath_EvalSymlinks := fun p w =>
    if bool_decide (p ∈ w) then inr p else inl (errorString "no such file or directory");
  exec_CombinedOutput := fun name args w =>
    match last args with
    | Some "broken" => (w, "error: flake not found", Some (errorString "exit status 1"))
    | _ => (default EmptyString (args !! 5%nat) :: w, EmptyString, None)
    end;
  exec_Output := fun name args w => (w, "/nix/store/aaa-hello /nix/store/bbb-glibc", None);
  cmd_String := fun name args => String.concat " " (name :: args);
  strings_Fields := fun s => [s];
  walk_installAll := fun root targetDir truncate link uid gid w =>
    ((targetDir +:+ root) :: w, None);
  users_Lookup := fun name w =>
    if String.eqb name "web" then inr (mkOSUser "1000" "1000")
    else inl (errorString "unknown user");
  users_Nobody := fun w => inr (mkOSUser "65534" "65534");
  strconv_Atoi := fun s =>
    if String.eqb s "1000" then inr 1000
    else if String.eqb s "65534" then inr 65534
    else inl (errorString "invalid syntax")
|}.

Definition taskDir : string := "/alloc/web".

Definition config (installables : ConfigValue) (nixHost : bool)
  : gmap string ConfigValue :=
  <["nix_installables" := installables]> (<["nix_host" := CVBool nixHost]> ∅).

Definition hello : string := "github:NixOS/nixpkgs#hello".

(** A host on which nothing of the task exists yet, and one on which its
    profile has been built. *)
Definition emptyHost : HookState (list string) := mkHookState [] [].
Definition builtHost : HookState (list string) :=
  mkHookState ["/alloc/web/current-alloc"] [].

Definition noMounts : TaskPrestartResponse := mkTaskPrestartResponse [] false.

End HookFixture.

(** * Properties *)

Ltac unfold_M :=
  unfold when, try, exit, emit, logger, checkNsOp, mbind, M_bind, mret, M_ret in *.

Lemma new_events_app (st st' : State) (evs : list Event) :
  st_events st' = st_events st ++ evs → new_events st st' = evs.
Proof. intros E. unfold new_events. rewrite E. apply drop_app_length. Qed.

Lemma new_output_app (st st' : State) (bs : list byte) :
  conn_out (st_conn st') = conn_out (st_conn st) ++ bs → new_output st st' = bs.
Proof. intros E. unfold new_output. rewrite E. apply drop_app_length. Qed.

Lemma not_handler_not_invoked (st st' : State) (evs : list Event) :
  st_events st' = st_events st ++ evs →
  Forall (λ ev, ∀ cmd tty, ev ≠ EvHandler cmd tty) evs →
  handler_not_invoked st st'.
Proof.
  intros E Hall cmd tty Hin. rewrite (new_events_app _ _ _ E) in Hin.
  rewrite Forall_forall in Hall. by apply (Hall _ Hin cmd tty).
Qed.

Lemma connWrite_output (bs : list byte) (c : Conn) :
  (write_succeeds c ∧ (connWrite bs c).2 = None ∧
   conn_out (connWrite bs c).1 = conn_out c ++ bs) ∨
  (¬ write_succeeds c ∧ (connWrite bs c).2 ≠ None ∧
   conn_out (connWrite bs c).1 = conn_out c).
Proof.
  unfold connWrite, write_succeeds.
  destruct (conn_faults c) as [|[e|] fs]; simpl; [left|right|left]; naive_solver.
Qed.

Lemma connWrite_input (bs : list byte) (c : Conn) :
  conn_in (connWrite bs c).1 = conn_in c.
Proof. unfold connWrite. by repeat case_match. Qed.

Lemma string_app_nil (t : string) : EmptyString +:+ t = t.
Proof. reflexivity. Qed.

Lemma string_app_cons (c : Ascii.ascii) (s t : string) :
  String c s +:+ t = String c (s +:+ t).
Proof. reflexivity. Qed.

Lemma string_length_app (s t : string) :
  String.length (s +:+ t) = (String.length s + String.length t)%nat.
Proof.
  induction s as [|c s IH]; [done|].
  rewrite string_app_cons. simpl. by rewrite IH.
Qed.

Lemma string_app_assoc (s t u : string) : (s +:+ t) +:+ u = s +:+ t +:+ u.
Proof.
  induction s as [|c s IH]; [done|].
  rewrite !string_app_cons. by rewrite IH.
Qed.

(** Two texts that end in suffixes of the same length end in the same
    suffix. *)
Lemma string_app_suffix_inj (a b s t : string) :
  String.length s = String.length t → a +:+ s = b +:+ t → s = t.
Proof.
  revert b. induction a as [|c a IH]; intros [|d b] Hlen E;
    rewrite ?string_app_nil, ?string_app_cons in E.
  - done.
  - rewrite E in Hlen. simpl in Hlen. rewrite string_length_app in Hlen. lia.
  - rewrite <- E in Hlen. simpl in Hlen. rewrite string_length_app in Hlen. lia.
  - injection E as _ E. by apply (IH b).
Qed.

(** The message of a task that was never started is never the message of a
    task that is not running, whatever the quoted task names are. *)
Lemma not_started_vs_not_running (q1 q2 : string) :
  "task " +:+ q1 +:+ " not started yet." ≠ "task " +:+ q2 +:+ " is not running.".
Proof.
  intros E.
  change (" not started yet.") with (" not started " +:+ "yet.") in E.
  change (" is not running.") with (" is not runn" +:+ "ing.") in E.
  rewrite <- !string_app_assoc in E.
  apply string_app_suffix_inj in E; done.
Qed.

Section Properties.

Context `{Codec} `{ErrorText}.

(** *** The stream *)

Lemma Send_events (s : execStream) (m : ExecTaskStreamingResponseMsg) (st : State) :
  st_events (Send s m st).1.2 =
  st_events st ++ [EvLog LInfo "alloc_exec: sending event"].
Proof. unfold Send, Encode. simpl. by destruct (connWrite _ _). Qed.


Lemma Recv_events (s : execStream) (st : State) :
  st_events (Recv s st).2 = st_events st.
Proof. unfold Recv. by destruct (decodeInput _ _) as [[? ?] ?]. Qed.

Lemma Recv_output (s : execStream) (st : State) :
  conn_out (st_conn (Recv s st).2) = conn_out (st_conn st).
Proof. unfold Recv. by destruct (decodeInput _ _) as [[? ?] ?]. Qed.

(** A handler only adds log lines to the record of a run. *)
Lemma runHandler_events (p : HandlerProg) :
  ∀ (s : execStream) (st : State),
  ∃ evs, st_events (runHandler p s st).1 = st_events st ++ evs ∧ Forall is_log evs.
Proof.
  induction p as [err|m k IH|k IH]; intros s st; simpl.
  - exists []. by rewrite app_nil_r.
  - pose proof (Send_events s m st) as E.
    destruct (Send s m st) as [[s' st'] err]; simpl in E.
    destruct (IH err s' st') as (evs & E' & Hall).
    exists (EvLog LInfo "alloc_exec: sending event" :: evs).
    rewrite E', E, <- app_assoc. split; [done|]. by constructor.
  - pose proof (Recv_events s st) as E.
    destruct (Recv s st) as [[req err] st']; simpl in E.
    destruct (IH req err s st') as (evs & E' & Hall).
    exists evs. by rewrite E', E.
Qed.



(** *** The three parts of [execImpl] *)

Ltac nonempty :=
  repeat match goal with
         | H : bool_decide _ = false |- _ => apply bool_decide_eq_false in H
         | H : bool_decide _ = true |- _ => apply bool_decide_eq_true in H
         end;
  try done;
  try (intros E; rewrite E in *; done).

(** The first part never calls the handler, never writes on the connection,
    makes its capability checks under [validate_event], and goes on only
    with the request it decoded, all three arguments being non-empty. *)
Lemma validate_spec (a : Client) (execID : string) (st : State) :
  let req := (decodeRequest (conn_in (st_conn st)) zeroAllocExecRequest).1.1 in
  ∃ evs,
    st_events (execImpl_validate a execID st).1 = st_events st ++ evs ∧
    Forall (validate_event req) evs ∧
    conn_out (st_conn (execImpl_validate a execID st).1) = conn_out (st_conn st) ∧
    ∀ v, (execImpl_validate a execID st).2 = Continue v →
         v_req v = req ∧ AllocID req ≠ EmptyString ∧
         Task req ≠ EmptyString ∧ Cmd req ≠ [].
Proof.
  unfold execImpl_validate, decodeArgs. unfold_M.
  destruct (decodeRequest _ _) as [[req err] rest]. simpl.
  repeat (case_match; simplify_eq/=);
    rewrite <- ?app_assoc; eexists;
    (split; [try reflexivity; by rewrite app_nil_r|]);
    (split; [repeat constructor; simpl; nonempty|]);
    (split; [done|]); intros v' ?; simplify_eq/=; repeat split; nonempty.
Qed.

(** The second part only ever cancels the session context, and leaves the
    connection alone. *)
Lemma locate_spec (a : Client) (v : Validated) (st : State) :
  ∃ evs,
    st_events (execImpl_locate a v st).1 = st_events st ++ evs ∧
    Forall (λ ev, ev = EvCtxCancel) evs ∧
    st_conn (execImpl_locate a v st).1 = st_conn st.
Proof.
  unfold execImpl_locate. unfold_M.
  repeat (case_match; simplify_eq/=);
    eexists; (split; [try reflexivity; by rewrite app_nil_r|]);
    split; by repeat constructor.
Qed.

(** The third part calls the handler, runs it, logs the outcome and maps it
    to the result. *)
Lemma run_spec (v : Validated) (h : TaskExecHandler) (st : State) :
  let req := v_req v in
  let st1 := mkState (st_conn st) (st_events st ++ [EvHandler (Cmd req) (Tty req)]) in
  let r := runHandler (h (Cmd req) (Tty req)) newExecStream st1 in
  execImpl_run v h st =
    match r.2 with
    | Some e =>
        (mkState (st_conn r.1)
           ((st_events r.1 ++ [EvLog LError "alloc_exec: handler call failed"])
              ++ [EvCtxCancel]),
         Return (Some 500) (Some e))
    | None =>
        (mkState (st_conn r.1)
           ((st_events r.1 ++ [EvLog LError "alloc_exec: finished without error"])
              ++ [EvCtxCancel]),
         Return None None)
    end.
Proof.
  unfold execImpl_run. unfold_M. simpl.
  destruct (runHandler _ _ _) as [st' [e|]]; done.
Qed.

Lemma execImpl_unfold (a : Client) (execID : string) (st : State) :
  execImpl a execID st =
    match execImpl_validate a execID st with
    | (st1, Return code err) => (st1, (code, err))
    | (st1, Continue v) =>
        match execImpl_locate a v st1 with
        | (st2, Return code err) => (st2, (code, err))
        | (st2, Continue h) =>
            match execImpl_run v h st2 with
            | (st3, Return code err) => (st3, (code, err))
            | (_, Continue x) => match x with end
            end
        end
    end.
Proof.
  unfold execImpl, execImpl_body. unfold mbind, M_bind.
  destruct (execImpl_validate a execID st) as [st1 [v|c e]]; [|done].
  destruct (execImpl_locate a v st1) as [st2 [h|c e]]; done.
Qed.

(** A [return] in the first part is the result of [execImpl], and the
    handler has not been called. *)
Lemma validate_return (a : Client) (execID : string) (st : State) code err :
  (execImpl_validate a execID st).2 = Return code err →
  (execImpl a execID st).2 = (code, err) ∧
  handler_not_invoked st (execImpl a execID st).1.
Proof.
  intros E. rewrite execImpl_unfold.
  destruct (validate_spec a execID st) as (evs & Ev & Hall & _).
  destruct (execImpl_validate a execID st) as [st1 r]; simpl in *. subst r.
  split; [done|]. apply (not_handler_not_invoked _ _ evs Ev).
  eapply Forall_impl; [exact Hall|]. intros [] Hev ? ?; done.
Qed.

(** A [return] in the second part is the result of [execImpl], and the
    handler has not been called. *)
Lemma locate_return (a : Client) (execID : string) (st st1 : State) v code err :
  execImpl_validate a execID st = (st1, Continue v) →
  (execImpl_locate a v st1).2 = Return code err →
  (execImpl a execID st).2 = (code, err) ∧
  handler_not_invoked st (execImpl a execID st).1.
Proof.
  intros Ev El. rewrite execImpl_unfold.
  destruct (validate_spec a execID st) as (evs & E1 & Hall & _).
  destruct (locate_spec a v st1) as (evs' & E2 & Hall' & _).
  rewrite Ev in *. simpl in *.
  destruct (execImpl_locate a v st1) as [st2 r]; simpl in *. subst r.
  split; [done|]. apply (not_handler_not_invoked _ _ (evs ++ evs')).
  - simpl. by rewrite E2, E1, app_assoc.
  - apply Forall_app. split.
    + eapply Forall_impl; [exact Hall|]. intros [] Hev ? ?; done.
    + eapply Forall_impl; [exact Hall'|]. intros ev -> ? ?; done.
Qed.

(** *** Authorization *)

(** C2.  A request that names a known allocation and carries a token
    resolved to a capability set without "alloc-exec" for the allocation's
    namespace is answered with [ErrPermissionDenied] and a nil status code,
    and the driver handler is not called. *)
Theorem alloc_exec_denied (a : Client) (execID : string) (st : State)
    (req : AllocExecRequest) (rest : list byte) (ar : AllocRunner)
    (o : ACL) (tok : option ACLToken) :
  decodeRequest (conn_in (st_conn st)) zeroAllocExecRequest = (req, None, rest) →
  AllocID req ≠ EmptyString →
  getAllocRunner a (AllocID req) = inr ar →
  resolveTokenAndACL a (AuthToken req) = (Some o, tok, None) →
  AllowNsOp o (Namespace (Alloc ar)) NamespaceCapabilityAllocExec = false →
  (execImpl a execID st).2 = (None, Some ErrPermissionDenied) ∧
  handler_not_invoked st (execImpl a execID st).1.
Proof.
  intros Hdec Hid Har Hacl Hcap. apply validate_return.
  unfold execImpl_validate, decodeArgs. unfold_M. rewrite Hdec. simpl.
  destruct (DisableRemoteExec a); [done|]. simpl.
  rewrite bool_decide_false by done. rewrite Har, Hacl.
  destruct tok as [t|]; simpl; by rewrite Hcap.
Qed.

(** C1, as the code has it.  A request with a non-empty allocation ID, task
    name and command, whose task has filesystem isolation "none" and whose
    token is resolved to a capability set without "alloc-node-exec" for the
    allocation's namespace, is answered with [ErrPermissionDenied] and a nil
    status code, and the driver handler is not called; whether "alloc-exec"
    is granted makes no difference. *)
Theorem alloc_node_exec_denied (a : Client) (execID : string) (st : State)
    (req : AllocExecRequest) (rest : list byte) (ar : AllocRunner)
    (o : ACL) (tok : option ACLToken) (capabilities : Capabilities) :
  decodeRequest (conn_in (st_conn st)) zeroAllocExecRequest = (req, None, rest) →
  AllocID req ≠ EmptyString →
  Task req ≠ EmptyString →
  Cmd req ≠ [] →
  getAllocRunner a (AllocID req) = inr ar →
  resolveTokenAndACL a (AuthToken req) = (Some o, tok, None) →
  GetTaskDriverCapabilities ar (Task req) = inr capabilities →
  FSIsolation capabilities = FSIsolationNone →
  AllowNsOp o (Namespace (Alloc ar)) NamespaceCapabilityAllocNodeExec = false →
  (execImpl a execID st).2 = (None, Some ErrPermissionDenied) ∧
  handler_not_invoked st (execImpl a execID st).1.
Proof.
  intros Hdec Hid Htask Hcmd Har Hacl Hcaps Hiso Hcap. apply validate_return.
  unfold execImpl_validate, decodeArgs. unfold_M. rewrite Hdec. simpl.
  destruct (DisableRemoteExec a); [done|]. simpl.
  rewrite bool_decide_false by done. rewrite Har, Hacl.
  destruct tok as [t|]; simpl;
    (destruct (AllowNsOp o _ NamespaceCapabilityAllocExec); [|done]); simpl;
    rewrite bool_decide_false by done; simpl;
    rewrite bool_decide_false by (by destruct (Cmd req)); simpl;
    rewrite Hcaps; simpl; rewrite bool_decide_true by done; simpl;
    by rewrite Hcap.
Qed.

(** C6.  When remote exec is enabled and the lookup of the allocation named
    by the request fails, the status is 404 for an unknown-allocation error
    and 500 for any other error, the error is handed on, and the driver
    handler is not called. *)
Theorem alloc_lookup_failure (a : Client) (execID : string) (st : State)
    (req : AllocExecRequest) (rest : list byte) (e : Error) :
  decodeRequest (conn_in (st_conn st)) zeroAllocExecRequest = (req, None, rest) →
  DisableRemoteExec a = false →
  AllocID req ≠ EmptyString →
  getAllocRunner a (AllocID req) = inl e →
  (execImpl a execID st).2 =
    (Some (if IsErrUnknownAllocation a e then 404 else 500), Some e) ∧
  handler_not_invoked st (execImpl a execID st).1.
Proof.
  intros Hdec Hen Hid Har. apply validate_return.
  unfold execImpl_validate, decodeArgs. unfold_M. rewrite Hdec. simpl.
  rewrite Hen. simpl. rewrite bool_decide_false by done. rewrite Har. simpl.
  unfold lookupCode, Int64ToPtr. by destruct (IsErrUnknownAllocation a e).
Qed.

(** *** Location of the task *)

(** C8.  Once the request is validated and the state of its allocation is
    read, a task name that is absent from the task-state mapping is answered
    with status 400 and an "unknown task name" error, and the driver handler
    is not called. *)
Theorem unknown_task_name (a : Client) (execID : string) (st st1 : State)
    (v : Validated) (allocState : AllocState) :
  execImpl_validate a execID st = (st1, Continue v) →
  GetAllocState a (AllocID (v_req v)) = inr allocState →
  TaskStates allocState !! Task (v_req v) = None →
  let err := errorString ("unknown task name " +:+ quote a (Task (v_req v))) in
  execImpl_locate a v st1 = (st1, Return (Some 400) (Some err)) ∧
  (execImpl a execID st).2 = (Some 400, Some err) ∧
  handler_not_invoked st (execImpl a execID st).1.
Proof.
  intros Hv Hst Hts err.
  assert (execImpl_locate a v st1 = (st1, Return (Some 400) (Some err))) as El.
  { unfold execImpl_locate. unfold_M. rewrite Hst. simpl. by rewrite Hts. }
  split; [done|]. apply (locate_return a execID st st1 v); [done|]. by rewrite El.
Qed.

(** C7.  Once the request is validated and the state of its allocation is
    read: a task whose start time is the zero time is answered with status
    404 and a "not started yet" message; a task that has started and has no
    exec handler is answered with status 404 and an "is not running" message;
    and the two messages differ, for this task and for any two tasks. *)
Theorem not_started_and_not_running (a : Client) (execID : string) (st st1 : State)
    (v : Validated) (allocState : AllocState) (taskState : TaskState) :
  execImpl_validate a execID st = (st1, Continue v) →
  GetAllocState a (AllocID (v_req v)) = inr allocState →
  TaskStates allocState !! Task (v_req v) = Some (Some taskState) →
  let notStarted (q : string) := errorString ("task " +:+ q +:+ " not started yet.") in
  let notRunning (q : string) := errorString ("task " +:+ q +:+ " is not running.") in
  let q := quote a (Task (v_req v)) in
  (IsZero (StartedAt taskState) = true →
     (execImpl_locate a v st1).2 = Return (Some 404) (Some (notStarted q)) ∧
     (execImpl a execID st).2 = (Some 404, Some (notStarted q)) ∧
     handler_not_invoked st (execImpl a execID st).1) ∧
  (IsZero (StartedAt taskState) = false →
   GetTaskExecHandler (v_ar v) (Task (v_req v)) = None →
     (execImpl_locate a v st1).2 = Return (Some 404) (Some (notRunning q)) ∧
     (execImpl a execID st).2 = (Some 404, Some (notRunning q)) ∧
     handler_not_invoked st (execImpl a execID st).1) ∧
  (∀ q1 q2, notStarted q1 ≠ notRunning q2).
Proof.
  intros Hv Hst Hts notStarted notRunning q. split; [|split].
  - intros Hzero.
    assert ((execImpl_locate a v st1).2 = Return (Some 404) (Some (notStarted q))) as El.
    { unfold execImpl_locate. unfold_M. rewrite Hst. simpl. rewrite Hts. simpl.
      by rewrite Hzero. }
    split; [done|]. by eapply locate_return.
  - intros Hzero Hh.
    assert ((execImpl_locate a v st1).2 = Return (Some 404) (Some (notRunning q))) as El.
    { unfold execImpl_locate. unfold_M. rewrite Hst. simpl. rewrite Hts. simpl.
      by rewrite Hzero, Hh. }
    split; [done|]. by eapply locate_return.
  - intros q1 q2 E. apply (not_started_vs_not_running q1 q2).
    unfold notStarted, notRunning in E. congruence.
Qed.

(** *** The session *)

Lemma run_session (v : Validated) (h : TaskExecHandler) (st : State) :
  (execImpl_run v h st).2 =
    match (session v h st).2 with
    | Some e => Return (Some 500) (Some e)
    | None => Return None None
    end ∧
  st_conn (execImpl_run v h st).1 = st_conn (session v h st).1 ∧
  ∃ evs, st_events (execImpl_run v h st).1 =
           st_events st ++ EvHandler (Cmd (v_req v)) (Tty (v_req v)) :: evs ∧
         Forall (λ ev, is_log ev ∨ ev = EvCtxCancel) evs.
Proof.
  rewrite run_spec. unfold session.
  destruct (runHandler_events (h (Cmd (v_req v)) (Tty (v_req v))) newExecStream
    (mkState (st_conn st) (st_events st ++ [EvHandler (Cmd (v_req v)) (Tty (v_req v))])))
    as (evs & E & Hall).
  destruct (runHandler _ _ _) as [st' [e|]]; simpl in *;
    (split; [done|]); (split; [done|]); eexists; rewrite E, <- !app_assoc;
    (split; [reflexivity|]);
    (apply Forall_app; split;
      [eapply Forall_impl; [exact Hall|]; by left
      |apply Forall_cons; split; [by left|];
       apply Forall_cons; split; [by right|constructor]]).
Qed.

(** C5.  Once the handler is reached: when it returns an error the result
    is status 500 with that error, when it returns nil the result is no
    status and no error; and what is on the connection afterwards is what the
    handler left there, [execImpl] and, on success, [exec] write nothing of
    their own. *)
Theorem handler_result_mapping (a : Client) (execID : string) (st st1 st2 : State)
    (v : Validated) (h : TaskExecHandler) :
  execImpl_validate a execID st = (st1, Continue v) →
  execImpl_locate a v st1 = (st2, Continue h) →
  (execImpl a execID st).2 =
    match (session v h st2).2 with
    | Some e => (Some 500, Some e)
    | None => (None, None)
    end ∧
  conn_out (st_conn (execImpl a execID st).1) = conn_out (st_conn (session v h st2).1) ∧
  ((session v h st2).2 = None →
   conn_out (st_conn (exec a execID st)) = conn_out (st_conn (session v h st2).1)).
Proof.
  intros Hv Hl. unfold exec. rewrite execImpl_unfold, Hv, Hl.
  destruct (run_session v h st2) as (Er & Ec & _).
  destruct (execImpl_run v h st2) as [st3 [[]|code err]]; simpl in *.
  destruct (session v h st2) as [st' [e|]]; simpl in *; simplify_eq/=.
  - by rewrite Ec.
  - by rewrite Ec.
Qed.

(** *** The invariant of the request *)

Lemma validate_event_invariant (req : AllocExecRequest) (ev : Event) :
  validate_event req ev → request_invariant req ev.
Proof. by destruct ev. Qed.

(** C3, as the code has it.  In every run of [execImpl]: at the "alloc-exec"
    check the allocation ID is non-empty; at the "alloc-node-exec" check the
    allocation ID, the task name and the command are non-empty; and the
    handler is called with the command of the request, which is non-empty, as
    are the allocation ID and the task name by then. *)
Theorem request_invariant_holds (a : Client) (execID : string) (st : State) :
  Forall
    (request_invariant (decodeRequest (conn_in (st_conn st)) zeroAllocExecRequest).1.1)
    (new_events st (execImpl a execID st).1).
Proof.
  rewrite execImpl_unfold.
  destruct (validate_spec a execID st) as (evs & E1 & Hall & _ & Hpost).
  pose proof (Forall_impl _ _ _ Hall
    (validate_event_invariant
       (decodeRequest (conn_in (st_conn st)) zeroAllocExecRequest).1.1)) as Hinv.
  destruct (execImpl_validate a execID st) as [st1 [v|code err]]; simpl in *.
  2: { by rewrite (new_events_app _ _ _ E1). }
  destruct (Hpost v eq_refl) as (Hreq & Hid & Htask & Hcmd).
  destruct (locate_spec a v st1) as (evs' & E2 & Hall' & _).
  assert (Forall
    (request_invariant (decodeRequest (conn_in (st_conn st)) zeroAllocExecRequest).1.1)
    evs') as Hinv'.
  { eapply Forall_impl; [exact Hall'|]. by intros ev ->. }
  destruct (execImpl_locate a v st1) as [st2 [h|code err]]; simpl in *.
  2: { rewrite (new_events_app st st2 (evs ++ evs')).
       - by apply Forall_app.
       - by rewrite E2, E1, app_assoc. }
  destruct (run_session v h st2) as (_ & _ & evs'' & E3 & Hall'').
  destruct (execImpl_run v h st2) as [st3 [[]|code err]]; simpl in *.
  rewrite (new_events_app st st3
    (evs ++ evs' ++ EvHandler (Cmd (v_req v)) (Tty (v_req v)) :: evs'')).
  - apply Forall_app; split; [done|]. apply Forall_app; split; [done|].
    constructor.
    + simpl. by rewrite Hreq.
    + eapply Forall_impl; [exact Hall''|].
      intros ev [Hl|Heq]; [by destruct ev|by subst].
  - by rewrite E3, E2, E1, <- !app_assoc.
Qed.

(** *** The frames *)

(** When the write succeeds, [Send] returns nil and has written exactly one
    envelope, whatever the frame buffer held before.  A receiver whose two
    decoders invert the two encoders reads an envelope without error fields
    whose payload decodes to the frame sent, and nothing is left on the
    wire. *)
Lemma Send_received
    (decodeWrapper : list byte → option (StreamErrWrapper * list byte))
    (decodeFrame : list byte → option ExecTaskStreamingResponseMsg) :
  (∀ w rest, decodeWrapper (encodeWrapper w ++ rest) = Some (w, rest)) →
  (∀ m, decodeFrame (encodeFrame m) = Some m) →
  ∀ (s : execStream) (m : ExecTaskStreamingResponseMsg) (st : State),
  write_succeeds (st_conn st) →
  (Send s m st).2 = None ∧
  ∃ w, new_output st (Send s m st).1.2 = encodeWrapper w ∧
       no_error_fields w ∧
       counterpartRecv decodeWrapper decodeFrame (new_output st (Send s m st).1.2) =
         Some (w, Some m, []).
Proof.
  intros Hd Hf s m st Hw. unfold Send, Encode. simpl.
  destruct (connWrite_output
    (encodeWrapper (mkStreamErrWrapper (encodeFrame m) None None)) (st_conn st))
    as [(_ & E & O)|(Hn & _)]; [|done].
  destruct (connWrite _ _) as [c err]; simpl in *. split; [done|].
  exists (mkStreamErrWrapper (encodeFrame m) None None).
  rewrite (new_output_app st (set_conn c _) _ O).
  split; [done|]. split; [done|].
  unfold counterpartRecv.
  rewrite <- (app_nil_r (encodeWrapper _)), Hd. simpl. by rewrite Hf.
Qed.

(** *** A connection that refuses no write *)

Lemma accepts_writes_next (c : Conn) : accepts_writes c → write_succeeds c.
Proof.
  unfold accepts_writes, write_succeeds.
  destruct (conn_faults c) as [|[e|] fs]; [done| |done].
  intros Hall. by apply Forall_cons in Hall as [? _].
Qed.

Lemma connWrite_accepted (bs : list byte) (c : Conn) :
  accepts_writes c →
  accepts_writes (connWrite bs c).1 ∧ (connWrite bs c).2 = None ∧
  conn_out (connWrite bs c).1 = conn_out c ++ bs.
Proof.
  unfold accepts_writes, connWrite.
  destruct (conn_faults c) as [|[e|] fs]; simpl; intros Hall.
  - done.
  - by apply Forall_cons in Hall as [? _].
  - by apply Forall_cons in Hall as [_ ?].
Qed.

Lemma Send_accepted (s : execStream) (m : ExecTaskStreamingResponseMsg) (st : State) :
  accepts_writes (st_conn st) →
  accepts_writes (st_conn (Send s m st).1.2) ∧ (Send s m st).2 = None ∧
  conn_out (st_conn (Send s m st).1.2) =
    conn_out (st_conn st) ++
    encodeWrapper (mkStreamErrWrapper (encodeFrame m) None None).
Proof.
  intros Ha. unfold Send, Encode. simpl.
  destruct (connWrite_accepted
    (encodeWrapper (mkStreamErrWrapper (encodeFrame m) None None)) (st_conn st) Ha)
    as (A & E & O).
  by destruct (connWrite _ _) as [c err].
Qed.

Lemma Recv_faults (s : execStream) (st : State) :
  conn_faults (st_conn (Recv s st).2) = conn_faults (st_conn st).
Proof. unfold Recv. by destruct (decodeInput _ _) as [[? ?] ?]. Qed.








(** C10, as the code has it.  [Recv] never returns a nil frame: it returns
    the address of the frame it initialised to the zero value, as the decoder
    left it, together with the decoder's error.  On a decode error the frame
    is therefore the zero value only if the decoder had stored nothing. *)
Theorem Recv_frame_never_nil (s : execStream) (st : State) :
  (Recv s st).1.1 = Some (decodeInput (conn_in (st_conn st)) zeroRequestMsg).1.1 ∧
  (Recv s st).1.2 = (decodeInput (conn_in (st_conn st)) zeroRequestMsg).1.2.
Proof.
  unfold Recv. by destruct (decodeInput _ _) as [[req err] rest].
Qed.

End Properties.

(** ** The total wire format *)

Lemma getChunk_putChunk (bs rest : list byte) :
  Wire.getChunk (Wire.putChunk bs ++ rest) = Some (bs, rest).
Proof. induction bs as [|b bs IH]; simpl; [done|]. by rewrite IH. Qed.

Lemma getPos_putPos (p : positive) (rest : list byte) :
  Wire.getPos (Wire.putPos p ++ rest) = Some (p, rest).
Proof. induction p as [q IH|q IH|]; simpl; [by rewrite IH|by rewrite IH|done]. Qed.

Lemma getInt_putInt (z : Z) (rest : list byte) :
  Wire.getInt (Wire.putInt z ++ rest) = Some (z, rest).
Proof. destruct z as [|p|p]; simpl; [done| |]; by rewrite getPos_putPos. Qed.

Lemma getText_putText (s : string) (rest : list byte) :
  Wire.getText (Wire.putText s ++ rest) = Some (s, rest).
Proof.
  unfold Wire.getText, Wire.putText.
  by rewrite getChunk_putChunk, String.string_of_list_byte_of_string.
Qed.

Lemma getFlag_putFlag (b : bool) (rest : list byte) :
  Wire.getFlag (Wire.putFlag b ++ rest) = Some (b, rest).
Proof. by destruct b. Qed.

Lemma getMaybe_putMaybe {A : Type} (put : A → list byte)
    (get : list byte → option (A * list byte)) :
  (∀ v rest, get (put v ++ rest) = Some (v, rest)) →
  ∀ o rest, Wire.getMaybe get (Wire.putMaybe put o ++ rest) = Some (o, rest).
Proof. intros Hg [v|] rest; simpl; [by rewrite Hg|done]. Qed.

(** Every output frame is read back as it was written. *)
Lemma readFrame_writeFrame (m : ExecTaskStreamingResponseMsg) :
  Wire.readFrame (Wire.writeFrame m) = Some m.
Proof.
  destruct m as [out err exited code]. unfold Wire.readFrame, Wire.writeFrame.
  cbn [Stdout Stderr Exited ExitCode].
  rewrite (getMaybe_putMaybe _ _ getChunk_putChunk).
  rewrite (getMaybe_putMaybe _ _ getChunk_putChunk).
  rewrite getFlag_putFlag.
  rewrite <- (app_nil_r (Wire.putMaybe _ code)).
  by rewrite (getMaybe_putMaybe _ _ getInt_putInt).
Qed.

(** Every envelope is read back as it was written, and the bytes behind it
    are left for the next read. *)
Lemma readWrapper_writeWrapper (w : StreamErrWrapper) (rest : list byte) :
  Wire.readWrapper (Wire.writeWrapper w ++ rest) = Some (w, rest).
Proof.
  destruct w as [payload msg code]. unfold Wire.readWrapper, Wire.writeWrapper.
  cbn [Payload ErrorMessage ErrorCode].
  rewrite <- !app_assoc, getChunk_putChunk.
  rewrite (getMaybe_putMaybe _ _ getText_putText).
  by rewrite (getMaybe_putMaybe _ _ getInt_putInt).
Qed.

(** C4.  When the write succeeds, [Send] returns nil and has written exactly
    one envelope, whatever the frame buffer held before; the counterpart
    reads an envelope without error fields whose payload decodes to the
    frame sent, and nothing is left on the wire.  This holds for every
    frame, buffer and state with the total wire format, and with any codec
    whose two decoders invert its two encoders. *)
Theorem Send_round_trip :
  (∀ (s : execStream) (m : ExecTaskStreamingResponseMsg) (st : State),
     write_succeeds (st_conn st) →
     (@Send Wire.codec s m st).2 = None ∧
     ∃ w, new_output st (@Send Wire.codec s m st).1.2 = Wire.writeWrapper w ∧
          no_error_fields w ∧
          counterpartRecv Wire.readWrapper Wire.readFrame
            (new_output st (@Send Wire.codec s m st).1.2) = Some (w, Some m, [])) ∧
  (∀ (C : Codec)
     (decodeWrapper : list byte → option (StreamErrWrapper * list byte))
     (decodeFrame : list byte → option ExecTaskStreamingResponseMsg),
     (∀ w rest, decodeWrapper (encodeWrapper w ++ rest) = Some (w, rest)) →
     (∀ m, decodeFrame (encodeFrame m) = Some m) →
     ∀ (s : execStream) (m : ExecTaskStreamingResponseMsg) (st : State),
     write_succeeds (st_conn st) →
     (Send s m st).2 = None ∧
     ∃ w, new_output st (Send s m st).1.2 = encodeWrapper w ∧
          no_error_fields w ∧
          counterpartRecv decodeWrapper decodeFrame
            (new_output st (Send s m st).1.2) = Some (w, Some m, [])).
Proof.
  split.
  - intros s m st Hw.
    exact (@Send_received Wire.codec Wire.readWrapper Wire.readFrame
             readWrapper_writeWrapper readFrame_writeFrame s m st Hw).
  - intros C decodeWrapper decodeFrame Hd Hf s m st Hw.
    exact (@Send_received C decodeWrapper decodeFrame Hd Hf s m st Hw).
Qed.

(** ** The endpoint on the fixture node *)

Import Fixture.

Lemma alloc_exec_denied_witness :
  (execImpl (node false) "x1" (incoming (request "a1" "web" echo "read"))).2 =
    (None, Some ErrPermissionDenied) ∧
  handler_not_invoked (incoming (request "a1" "web" echo "read"))
    (execImpl (node false) "x1" (incoming (request "a1" "web" echo "read"))).1.
Proof.
  apply (alloc_exec_denied (node false) "x1" (incoming (request "a1" "web" echo "read"))
           (request "a1" "web" echo "read") [] ar1 readACL
           (Some (mkACLToken "viewer" "acc-3"))).
  - vm_compute; reflexivity.
  - simpl; discriminate.
  - vm_compute; reflexivity.
  - vm_compute; reflexivity.
  - vm_compute; reflexivity.
Defined.

(** C1, as the specification words it, fails on a request without a command:
    the task "raw" has isolation "none", the token "exec" is resolved to a
    capability set that grants "alloc-exec" and lacks "alloc-node-exec", and
    the answer is status 400, "command is not present". *)
Lemma alloc_node_exec_denial_needs_command :
  decodeRequest (conn_in (st_conn (incoming (request "a1" "raw" [] "exec"))))
    zeroAllocExecRequest = (request "a1" "raw" [] "exec", None, []) ∧
  getAllocRunner (node false) "a1" = inr ar1 ∧
  resolveTokenAndACL (node false) "exec" =
    (Some execACL, Some (mkACLToken "dev" "acc-1"), None) ∧
  GetTaskDriverCapabilities ar1 "raw" = inr (mkCapabilities FSIsolationNone) ∧
  AllowNsOp execACL (Namespace (Alloc ar1)) NamespaceCapabilityAllocNodeExec = false ∧
  AllowNsOp execACL (Namespace (Alloc ar1)) NamespaceCapabilityAllocExec = true ∧
  (execImpl (node false) "x1" (incoming (request "a1" "raw" [] "exec"))).2 =
    (Some 400, Some (errorString "command is not present")) ∧
  (execImpl (node false) "x1" (incoming (request "a1" "raw" [] "exec"))).2 ≠
    (None, Some ErrPermissionDenied).
Proof.
  repeat split; try (vm_compute; reflexivity).
  vm_compute. discriminate.
Qed.

Lemma alloc_node_exec_denied_witness :
  (execImpl (node false) "x1" (incoming (request "a1" "raw" echo "exec"))).2 =
    (None, Some ErrPermissionDenied) ∧
  handler_not_invoked (incoming (request "a1" "raw" echo "exec"))
    (execImpl (node false) "x1" (incoming (request "a1" "raw" echo "exec"))).1.
Proof.
  apply (alloc_node_exec_denied (node false) "x1"
           (incoming (request "a1" "raw" echo "exec"))
           (request "a1" "raw" echo "exec") [] ar1 execACL
           (Some (mkACLToken "dev" "acc-1")) (mkCapabilities "none")).
  - vm_compute; reflexivity.
  - simpl; discriminate.
  - simpl; discriminate.
  - simpl; discriminate.
  - vm_compute; reflexivity.
  - vm_compute; reflexivity.
  - vm_compute; reflexivity.
  - vm_compute; reflexivity.
  - vm_compute; reflexivity.
Defined.

Lemma alloc_lookup_failure_witness :
  ((execImpl (node false) "x1" (incoming (request "zz" "web" echo EmptyString))).2 =
     (Some 404, Some (errUnknownAlloc "zz")) ∧
   handler_not_invoked (incoming (request "zz" "web" echo EmptyString))
     (execImpl (node false) "x1" (incoming (request "zz" "web" echo EmptyString))).1) ∧
  ((execImpl (node false) "x1" (incoming (request "a2" "web" echo EmptyString))).2 =
     (Some 500, Some (errorString "alloc runner is shutting down")) ∧
   handler_not_invoked (incoming (request "a2" "web" echo EmptyString))
     (execImpl (node false) "x1" (incoming (request "a2" "web" echo EmptyString))).1).
Proof.
  split.
  - apply (alloc_lookup_failure (node false) "x1"
             (incoming (request "zz" "web" echo EmptyString))
             (request "zz" "web" echo EmptyString) [] (errUnknownAlloc "zz")).
    + vm_compute; reflexivity.
    + reflexivity.
    + simpl; discriminate.
    + vm_compute; reflexivity.
  - apply (alloc_lookup_failure (node false) "x1"
             (incoming (request "a2" "web" echo EmptyString))
             (request "a2" "web" echo EmptyString) []
             (errorString "alloc runner is shutting down")).
    + vm_compute; reflexivity.
    + reflexivity.
    + simpl; discriminate.
    + vm_compute; reflexivity.
Defined.

Lemma unknown_task_name_witness :
  (execImpl (node false) "x1" (incoming (request "a1" "late" echo EmptyString))).2 =
    (Some 400, Some (errorString ("unknown task name " +:+ quoted "late"))) ∧
  handler_not_invoked (incoming (request "a1" "late" echo EmptyString))
    (execImpl (node false) "x1" (incoming (request "a1" "late" echo EmptyString))).1.
Proof.
  apply (unknown_task_name (node false) "x1"
           (incoming (request "a1" "late" echo EmptyString))
           (execImpl_validate (node false) "x1"
              (incoming (request "a1" "late" echo EmptyString))).1
           (mkValidated (request "a1" "late" echo EmptyString) ar1 None
              (mkCapabilities "chroot"))
           (mkAllocState taskStates)).
  - vm_compute; reflexivity.
  - vm_compute; reflexivity.
  - vm_compute; reflexivity.
Defined.

Lemma not_started_and_not_running_witness :
  (execImpl (node false) "x1" (incoming (request "a1" "new" echo EmptyString))).2 =
    (Some 404, Some (errorString ("task " +:+ quoted "new" +:+ " not started yet."))) ∧
  (execImpl (node false) "x1" (incoming (request "a1" "idle" echo EmptyString))).2 =
    (Some 404, Some (errorString ("task " +:+ quoted "idle" +:+ " is not running."))).
Proof.
  split.
  - refine (proj1 (proj2 (proj1
      (not_started_and_not_running (node false) "x1"
         (incoming (request "a1" "new" echo EmptyString))
         (execImpl_validate (node false) "x1"
            (incoming (request "a1" "new" echo EmptyString))).1
         (mkValidated (request "a1" "new" echo EmptyString) ar1 None
            (mkCapabilities "chroot"))
         (mkAllocState taskStates) (mkTaskState never) _ _ _) _)));
      vm_compute; reflexivity.
  - refine (proj1 (proj2 (proj1 (proj2
      (not_started_and_not_running (node false) "x1"
         (incoming (request "a1" "idle" echo EmptyString))
         (execImpl_validate (node false) "x1"
            (incoming (request "a1" "idle" echo EmptyString))).1
         (mkValidated (request "a1" "idle" echo EmptyString) ar1 None
            (mkCapabilities "chroot"))
         (mkAllocState taskStates) (mkTaskState started) _ _ _)) _ _)));
      vm_compute; reflexivity.
Defined.

Lemma handler_result_mapping_witness :
  (execImpl (node false) "x1" (incoming (request "a1" "web" echo "exec"))).2 =
    (None, None) ∧
  (execImpl (node false) "x1" (incoming (request "a1" "broken" echo "node"))).2 =
    (Some 500, Some (errorString "exec failed")).
Proof.
  split.
  - refine (proj1
      (handler_result_mapping (node false) "x1"
         (incoming (request "a1" "web" echo "exec"))
         (execImpl_validate (node false) "x1"
            (incoming (request "a1" "web" echo "exec"))).1
         (execImpl_validate (node false) "x1"
            (incoming (request "a1" "web" echo "exec"))).1
         (mkValidated (request "a1" "web" echo "exec") ar1 (Some execACL)
            (mkCapabilities "chroot"))
         echoHandler _ _));
      vm_compute; reflexivity.
  - refine (proj1
      (handler_result_mapping (node false) "x1"
         (incoming (request "a1" "broken" echo "node"))
         (execImpl_validate (node false) "x1"
            (incoming (request "a1" "broken" echo "node"))).1
         (execImpl_validate (node false) "x1"
            (incoming (request "a1" "broken" echo "node"))).1
         (mkValidated (request "a1" "broken" echo "node") ar1 (Some nodeACL)
            (mkCapabilities "chroot"))
         failingHandler _ _));
      vm_compute; reflexivity.
Defined.

(** C3, as the specification words it, fails on a request without a task
    name: the "alloc-exec" check is made, and only then is the empty task
    name answered with status 400. *)
Lemma alloc_exec_checked_before_task_name :
  new_events (incoming (request "a1" EmptyString echo "exec"))
    (execImpl (node false) "x1" (incoming (request "a1" EmptyString echo "exec"))).1 =
    [EvLog LError "alloc_exec: parsed args";
     EvSessionStarting "x1" "a1" EmptyString echo false "dev" "acc-1";
     EvAllowNsOp "default" NamespaceCapabilityAllocExec] ∧
  (execImpl (node false) "x1" (incoming (request "a1" EmptyString echo "exec"))).2 =
    (Some 400, Some taskNotPresentErr) ∧
  ¬ Forall
      (request_invariant_as_specified
         (decodeRequest
            (conn_in (st_conn (incoming (request "a1" EmptyString echo "exec"))))
            zeroAllocExecRequest).1.1)
      (new_events (incoming (request "a1" EmptyString echo "exec"))
         (execImpl (node false) "x1"
            (incoming (request "a1" EmptyString echo "exec"))).1).
Proof.
  assert (new_events (incoming (request "a1" EmptyString echo "exec"))
    (execImpl (node false) "x1" (incoming (request "a1" EmptyString echo "exec"))).1 =
    [EvLog LError "alloc_exec: parsed args";
     EvSessionStarting "x1" "a1" EmptyString echo false "dev" "acc-1";
     EvAllowNsOp "default" NamespaceCapabilityAllocExec]) as E
    by (vm_compute; reflexivity).
  split; [exact E|]. split; [vm_compute; reflexivity|].
  rewrite E. intros Hall.
  apply Forall_cons in Hall as [_ Hall]. apply Forall_cons in Hall as [_ Hall].
  apply Forall_cons in Hall as [[_ Htask] _]. by apply Htask.
Qed.

Lemma Send_round_trip_witness :
  ((@Send Wire.codec Fixture2.stale Fixture2.lastFrame (fresh [])).2 = None ∧
   ∃ w, new_output (fresh [])
          (@Send Wire.codec Fixture2.stale Fixture2.lastFrame (fresh [])).1.2 =
          Wire.writeWrapper w ∧
        no_error_fields w ∧
        counterpartRecv Wire.readWrapper Wire.readFrame
          (new_output (fresh [])
             (@Send Wire.codec Fixture2.stale Fixture2.lastFrame (fresh [])).1.2) =
          Some (w, Some Fixture2.lastFrame, [])) ∧
  ((@Send Wire.codec newExecStream Fixture2.killedFrame (fresh [])).2 = None ∧
   ∃ w, new_output (fresh [])
          (@Send Wire.codec newExecStream Fixture2.killedFrame (fresh [])).1.2 =
          @encodeWrapper Wire.codec w ∧
        no_error_fields w ∧
        counterpartRecv Wire.readWrapper Wire.readFrame
          (new_output (fresh [])
             (@Send Wire.codec newExecStream Fixture2.killedFrame (fresh [])).1.2) =
          Some (w, Some Fixture2.killedFrame, [])).
Proof.
  split.
  - exact (proj1 Send_round_trip Fixture2.stale Fixture2.lastFrame (fresh []) I).
  - exact (proj2 Send_round_trip Wire.codec Wire.readWrapper Wire.readFrame
             readWrapper_writeWrapper readFrame_writeFrame
             newExecStream Fixture2.killedFrame (fresh []) I).
Defined.



(** C10, as stated, fails when the input ends in the middle of a
    frame: the decoder has stored the stdin chunk when it reports the error,
    and [Recv] returns that frame, not the zero value. *)
Lemma Recv_frame_after_truncated_input :
  (Recv newExecStream
     (fresh (take 4 (writeInput (mkRequestMsg (Some hi) None (Some true)))))).1 =
    (Some (mkRequestMsg (Some hi) None None), Some errUnexpectedEOF) ∧
  mkRequestMsg (Some hi) None None ≠ zeroRequestMsg.
Proof. split; [vm_compute; reflexivity|discriminate]. Qed.

(** * Further properties of the exec endpoint *)

Lemma count_app (f : Event → bool) (l k : list Event) :
  count f (l ++ k) = (count f l + count f k)%nat.
Proof. unfold count. by rewrite List.filter_app, length_app. Qed.

Lemma count_logs (f : Event → bool) (evs : list Event) :
  (∀ lvl msg, f (EvLog lvl msg) = false) → Forall is_log evs → count f evs = 0%nat.
Proof.
  intros Hf Hall. induction Hall as [|ev evs Hev _ IH]; [done|].
  destruct ev; try done. unfold count in *. simpl. by rewrite Hf.
Qed.

Lemma count_cancels (f : Event → bool) (evs : list Event) :
  f EvCtxCancel = false → Forall (λ ev, ev = EvCtxCancel) evs → count f evs = 0%nat.
Proof.
  intros Hf Hall. induction Hall as [|ev evs Hev _ IH]; [done|].
  subst ev. unfold count in *. simpl. by rewrite Hf.
Qed.

Section MoreProperties.

Context `{Codec} `{ErrorText}.

(** *** Every run of [execImpl] *)

(** The first part, path by path: what it records, what it leaves of the
    connection, and what it can return. *)
Lemma validate_trace (a : Client) (execID : string) (st : State) :
  ∃ evs,
    st_events (execImpl_validate a execID st).1 = st_events st ++ evs ∧
    count is_handler_call evs = 0%nat ∧
    count is_cancel evs = 0%nat ∧
    (count is_session_starting evs ≤ 1)%nat ∧
    st_conn (execImpl_validate a execID st).1 =
      set_in (decodeRequest (conn_in (st_conn st)) zeroAllocExecRequest).2 (st_conn st) ∧
    ∀ code err, (execImpl_validate a execID st).2 = Return code err →
                status_vocabulary code ∧ err ≠ None.
Proof.
  unfold execImpl_validate, decodeArgs, lookupCode, Int64ToPtr, status_vocabulary.
  unfold_M.
  destruct (decodeRequest _ _) as [[req err] rest]. simpl.
  repeat (case_match; simplify_eq/=);
    rewrite <- ?app_assoc; eexists;
    (split; [try reflexivity; by rewrite app_nil_r|]);
    unfold count; simpl; split_and!; try lia; try done;
    intros ? ? ?; simplify_eq/=; naive_solver.
Qed.

(** The second part, path by path. *)
Lemma locate_trace (a : Client) (v : Validated) (st : State) :
  ∃ evs,
    st_events (execImpl_locate a v st).1 = st_events st ++ evs ∧
    count is_handler_call evs = 0%nat ∧
    count is_session_starting evs = 0%nat ∧
    (count is_cancel evs ≤ 1)%nat ∧
    (∀ h, (execImpl_locate a v st).2 = Continue h → evs = []) ∧
    ∀ code err, (execImpl_locate a v st).2 = Return code err →
                status_vocabulary code ∧ code ≠ None ∧ err ≠ None.
Proof.
  unfold execImpl_locate, lookupCode, Int64ToPtr, status_vocabulary. unfold_M.
  repeat (case_match; simplify_eq/=);
    eexists; (split; [try reflexivity; by rewrite app_nil_r|]);
    unfold count; simpl; split_and!; try lia; try done;
    intros; simplify_eq/=; naive_solver.
Qed.

(** The third part: one call of the handler, then log lines, then the
    cancellation of the context as the last thing. *)
Lemma run_trace (v : Validated) (h : TaskExecHandler) (st : State) :
  ∃ logs lvl msg,
    st_events (execImpl_run v h st).1 =
      st_events st ++
      EvHandler (Cmd (v_req v)) (Tty (v_req v)) :: logs ++ [EvLog lvl msg; EvCtxCancel] ∧
    Forall is_log logs.
Proof.
  rewrite run_spec.
  destruct (runHandler_events (h (Cmd (v_req v)) (Tty (v_req v))) newExecStream
    (mkState (st_conn st) (st_events st ++ [EvHandler (Cmd (v_req v)) (Tty (v_req v))])))
    as (evs & E & Hall).
  destruct (runHandler _ _ _) as [st' [e|]]; simpl in *;
    exists evs; eexists _, _; rewrite E, <- !app_assoc; done.
Qed.

(** X3, the status vocabulary.  Whatever the client, the codec and the
    request, [execImpl] returns no status code or one of 400, 404 and 500;
    a status code never comes without an error; and it returns no error only
    after the handler has been called. *)
Theorem status_code_vocabulary (a : Client) (execID : string) (st : State) :
  status_vocabulary (execImpl a execID st).2.1 ∧
  ((execImpl a execID st).2.1 ≠ None → (execImpl a execID st).2.2 ≠ None) ∧
  ((execImpl a execID st).2.2 = None →
   (execImpl a execID st).2.1 = None ∧
   count is_handler_call (new_events st (execImpl a execID st).1) = 1%nat).
Proof.
  rewrite execImpl_unfold.
  destruct (validate_trace a execID st) as (evs & E1 & Hh1 & _ & _ & _ & R1).
  destruct (execImpl_validate a execID st) as [st1 [v|code err]]; simpl in *.
  2: { destruct (R1 code err eq_refl) as [Hc He]. by repeat split. }
  destruct (locate_trace a v st1) as (evs' & E2 & Hh2 & _ & _ & _ & R2).
  destruct (execImpl_locate a v st1) as [st2 [h|code err]]; simpl in *.
  2: { destruct (R2 code err eq_refl) as (Hc & _ & He). by repeat split. }
  destruct (run_trace v h st2) as (logs & lvl & msg & E3 & Hlogs).
  pose proof (run_spec v h st2) as Er. simpl in Er.
  destruct (execImpl_run v h st2) as [st3 [[]|code err]]; simpl in *.
  assert (count is_handler_call (new_events st st3) = 1%nat) as Hone.
  { rewrite (new_events_app st st3
      (evs ++ evs' ++ EvHandler (Cmd (v_req v)) (Tty (v_req v)) ::
         logs ++ [EvLog lvl msg; EvCtxCancel])).
    - rewrite !count_app, Hh1, Hh2.
      change (EvHandler (Cmd (v_req v)) (Tty (v_req v)) :: logs ++ [EvLog lvl msg; EvCtxCancel])
        with ([EvHandler (Cmd (v_req v)) (Tty (v_req v))] ++ logs ++ [EvLog lvl msg; EvCtxCancel]).
      rewrite !count_app, (count_logs is_handler_call logs) by done. done.
    - by rewrite E3, E2, E1, <- !app_assoc. }
  destruct (runHandler _ _ _) as [st' [e|]]; simpl in *; simplify_eq/=;
    unfold status_vocabulary; split_and!; auto; done.
Qed.

(** X4, one handler call, one cancellation.  In every run the handler is
    called at most once and the session context is cancelled at most once;
    when the handler was called, the cancellation is the last thing the run
    records, after everything the handler did. *)
Theorem handler_once_cancel_last (a : Client) (execID : string) (st : State) :
  (count is_handler_call (new_events st (execImpl a execID st).1) ≤ 1)%nat ∧
  (count is_cancel (new_events st (execImpl a execID st).1) ≤ 1)%nat ∧
  (count is_handler_call (new_events st (execImpl a execID st).1) = 1%nat →
   last (new_events st (execImpl a execID st).1) = Some EvCtxCancel ∧
   count is_cancel (new_events st (execImpl a execID st).1) = 1%nat).
Proof.
  rewrite execImpl_unfold.
  destruct (validate_trace a execID st) as (evs & E1 & Hh1 & Hc1 & _).
  destruct (execImpl_validate a execID st) as [st1 [v|code err]]; simpl in *.
  2: { rewrite (new_events_app _ _ _ E1), Hh1, Hc1. repeat split; lia. }
  destruct (locate_trace a v st1) as (evs' & E2 & Hh2 & _ & Hc2 & Hnil & _).
  destruct (execImpl_locate a v st1) as [st2 [h|code err]]; simpl in *.
  2: { rewrite (new_events_app st st2 (evs ++ evs')) by (by rewrite E2, E1, app_assoc).
       rewrite !count_app, Hh1, Hh2, Hc1. repeat split; lia. }
  rewrite (Hnil h eq_refl) in *. rewrite app_nil_r in E2.
  destruct (run_trace v h st2) as (logs & lvl & msg & E3 & Hlogs).
  destruct (execImpl_run v h st2) as [st3 [[]|code err]]; simpl in *.
  rewrite (new_events_app st st3
    (evs ++ [EvHandler (Cmd (v_req v)) (Tty (v_req v))] ++ logs ++
       [EvLog lvl msg; EvCtxCancel]))
    by (by rewrite E3, E2, E1, <- !app_assoc).
  rewrite !count_app, Hh1, Hc1.
  rewrite (count_logs is_handler_call logs), (count_logs is_cancel logs) by done.
  repeat split; try (unfold count; simpl; lia).
  rewrite !app_assoc.
  change [EvLog lvl msg; EvCtxCancel] with ([EvLog lvl msg] ++ [EvCtxCancel]).
  rewrite app_assoc. apply last_snoc.
Qed.

End MoreProperties.

Ltac bool_hyps :=
  repeat match goal with
         | H : bool_decide _ = false |- _ => apply bool_decide_eq_false in H
         | H : bool_decide _ = true |- _ => apply bool_decide_eq_true in H
         | H : negb _ = false |- _ => apply negb_false_iff in H
         | H : negb _ = true |- _ => apply negb_true_iff in H
         end;
  try done;
  try (intros E; rewrite E in *; done).

Section Paths.

Context `{Codec} `{ErrorText}.

(** *** When [execImpl] goes on *)

(** X1, acceptance.  The first part of [execImpl] goes on exactly when the
    request decodes, remote exec is not disabled, the allocation ID is
    non-empty and known, the token resolves, the alloc-exec check lets the
    caller through, task name and command are non-empty, the driver
    capabilities resolve and the node access check lets the caller through;
    it then hands on the decoded request, the runner, the capability set and
    the capabilities unchanged. *)
Theorem validate_continue_iff (a : Client) (execID : string) (st : State)
    (v : Validated) :
  (execImpl_validate a execID st).2 = Continue v ↔ accepted a st v.
Proof.
  split.
  - unfold accepted, execImpl_validate, decodeArgs, allocExecAllowed,
      allocNodeExecAllowed.
    unfold_M.
    destruct (decodeRequest _ _) as [[req err] rest]. simpl.
    repeat (case_match; simplify_eq/=); intros ?; simplify_eq/=;
      eexists _, _; split_and!; try done; bool_hyps.
  - intros (rest & token & Hdec & Hen & Hid & Har & Hacl & Hexec & Htask & Hcmd &
            Hcaps & Hnode).
    destruct v as [req ar aclObj capabilities]; simpl in *.
    unfold execImpl_validate, decodeArgs. unfold_M. rewrite Hdec. simpl.
    rewrite Hen. simpl. rewrite bool_decide_false by done. rewrite Har, Hacl.
    destruct token as [t|], aclObj as [o|]; simpl in *;
      rewrite ?Hexec; simpl;
      rewrite bool_decide_false by done; simpl;
      rewrite bool_decide_false by (by destruct (Cmd req)); simpl;
      rewrite Hcaps; simpl; try done;
      case_bool_decide; simpl; try done; by rewrite Hnode.
Qed.

(** X2, location.  The second part of [execImpl] goes on with a handler
    exactly when the allocation state can be read, the task has a state in
    it, the task has started and the runner has an exec handler for it. *)
Theorem locate_continue_iff (a : Client) (v : Validated) (st : State)
    (h : TaskExecHandler) :
  (execImpl_locate a v st).2 = Continue h ↔ located a v h.
Proof.
  unfold located, execImpl_locate. unfold_M. split.
  - repeat (case_match; simplify_eq/=); intros ?; simplify_eq/=.
    eexists _, _. split_and!; try done.
    destruct (TaskStates _ !! _) as [[ts|]|]; simplify_eq/=; done.
  - intros (allocState & taskState & Hst & Hts & Hzero & Hh).
    rewrite Hst. simpl. rewrite Hts. simpl. by rewrite Hzero, Hh.
Qed.

End Paths.

Section ErrorPaths.

Context `{Codec} `{ErrorText}.

(** *** The failure paths of the first part *)

Ltac run_validate :=
  rewrite execImpl_unfold;
  unfold execImpl_validate, decodeArgs; unfold_M.

(** X7, undecodable request.  When the request does not decode, [execImpl]
    returns status 500 with the decoder's error; it records one error line
    and nothing else: whatever the decoder had stored of the request is not
    acted upon. *)
Theorem decode_failure (a : Client) (execID : string) (st : State)
    (req : AllocExecRequest) (e : Error) (rest : list byte) :
  decodeRequest (conn_in (st_conn st)) zeroAllocExecRequest = (req, Some e, rest) →
  (execImpl a execID st).2 = (Some 500, Some e) ∧
  new_events st (execImpl a execID st).1 =
    [EvLog LError "alloc_exec: failed to decode request"] ∧
  new_output st (execImpl a execID st).1 = [].
Proof.
  intros Hdec. run_validate. rewrite Hdec. simpl. split_and!; [done|..].
  - by apply new_events_app.
  - apply new_output_app. simpl. by rewrite app_nil_r.
Qed.



(** X10, token resolution failure.  When the token does not resolve, the
    resolver's error is returned with no status code; the audit record has
    been written by then, and no capability check is made even if the
    resolver returned a capability set along with the error. *)
Theorem token_resolution_failure (a : Client) (execID : string) (st : State)
    (req : AllocExecRequest) (rest : list byte) (ar : AllocRunner)
    (aclObj : option ACL) (token : option ACLToken) (e : Error) :
  decodeRequest (conn_in (st_conn st)) zeroAllocExecRequest = (req, None, rest) →
  DisableRemoteExec a = false →
  AllocID req ≠ EmptyString →
  getAllocRunner a (AllocID req) = inr ar →
  resolveTokenAndACL a (AuthToken req) = (aclObj, token, Some e) →
  (execImpl a execID st).2 = (None, Some e) ∧
  new_events st (execImpl a execID st).1 =
    [EvLog LError "alloc_exec: parsed args";
     EvSessionStarting execID (AllocID req) (Task req) (Cmd req) (Tty req)
       (tokenIdentity token).1 (tokenIdentity token).2].
Proof.
  intros Hdec Hen Hid Har Hacl. run_validate. rewrite Hdec. simpl. rewrite Hen. simpl.
  rewrite bool_decide_false by done. rewrite Har, Hacl.
  destruct token as [t|]; simpl; (split; [done|]);
    apply new_events_app; simpl; by rewrite <- app_assoc.
Qed.

(** X11, argument validation.  Once the alloc-exec check has let the caller
    through, an empty task name is answered with status 400 and
    [taskNotPresentErr]; a non-empty task name with an empty command is
    answered with status 400 and "command is not present".  The handler is
    not called. *)
Theorem argument_validation (a : Client) (execID : string) (st : State)
    (req : AllocExecRequest) (rest : list byte) (ar : AllocRunner)
    (aclObj : option ACL) (token : option ACLToken) :
  decodeRequest (conn_in (st_conn st)) zeroAllocExecRequest = (req, None, rest) →
  DisableRemoteExec a = false →
  AllocID req ≠ EmptyString →
  getAllocRunner a (AllocID req) = inr ar →
  resolveTokenAndACL a (AuthToken req) = (aclObj, token, None) →
  allocExecAllowed aclObj (Namespace (Alloc ar)) →
  (Task req = EmptyString →
     (execImpl a execID st).2 = (Some 400, Some taskNotPresentErr)) ∧
  (Task req ≠ EmptyString → Cmd req = [] →
     (execImpl a execID st).2 =
       (Some 400, Some (errorString "command is not present"))) ∧
  (Task req = EmptyString ∨ Cmd req = [] →
     handler_not_invoked st (execImpl a execID st).1).
Proof.
  intros Hdec Hen Hid Har Hacl Hexec.
  assert (∀ code err,
    (Task req = EmptyString → code = Some 400 ∧ err = Some taskNotPresentErr) →
    (Task req ≠ EmptyString →
       code = Some 400 ∧ err = Some (errorString "command is not present")) →
    Task req = EmptyString ∨ Cmd req = [] →
    (execImpl_validate a execID st).2 = Return code err) as Hret.
  { intros code err Ht Hc Hor.
    unfold execImpl_validate, decodeArgs. unfold_M. rewrite Hdec. simpl.
    rewrite Hen. simpl. rewrite bool_decide_false by done. rewrite Har, Hacl.
    destruct token as [t|], aclObj as [o|]; simpl in *; rewrite ?Hexec; simpl;
      (destruct (decide (Task req = EmptyString)) as [Et|Et];
        [rewrite bool_decide_true by done; simpl;
         destruct (Ht Et) as [-> ->]; done
        |rewrite bool_decide_false by done; simpl;
         destruct Hor as [?|Ec]; [done|];
         rewrite Ec; simpl; destruct (Hc Et) as [-> ->]; done]). }
  split_and!.
  - intros Et. eapply validate_return, Hret; [done|done|by left].
  - intros Et Ec. eapply validate_return, Hret; [done|done|by right].
  - intros Hor. destruct (decide (Task req = EmptyString)) as [Et|Et].
    + eapply (validate_return a execID st (Some 400) (Some taskNotPresentErr)), Hret;
        [done|done|done].
    + eapply (validate_return a execID st (Some 400)
        (Some (errorString "command is not present"))), Hret; [done|done|done].
Qed.

(** X12, driver capabilities failure.  When the runner cannot give the driver
    capabilities of the task, the status is 404 for an unknown-allocation
    error and 500 otherwise, the error is handed on, and the handler is not
    called. *)
Theorem driver_capabilities_failure (a : Client) (execID : string) (st : State)
    (req : AllocExecRequest) (rest : list byte) (ar : AllocRunner)
    (aclObj : option ACL) (token : option ACLToken) (e : Error) :
  decodeRequest (conn_in (st_conn st)) zeroAllocExecRequest = (req, None, rest) →
  DisableRemoteExec a = false →
  AllocID req ≠ EmptyString →
  getAllocRunner a (AllocID req) = inr ar →
  resolveTokenAndACL a (AuthToken req) = (aclObj, token, None) →
  allocExecAllowed aclObj (Namespace (Alloc ar)) →
  Task req ≠ EmptyString →
  Cmd req ≠ [] →
  GetTaskDriverCapabilities ar (Task req) = inl e →
  (execImpl a execID st).2 =
    (Some (if IsErrUnknownAllocation a e then 404 else 500), Some e) ∧
  handler_not_invoked st (execImpl a execID st).1.
Proof.
  intros Hdec Hen Hid Har Hacl Hexec Htask Hcmd Hcaps. apply validate_return.
  unfold execImpl_validate, decodeArgs, lookupCode, Int64ToPtr. unfold_M.
  rewrite Hdec. simpl. rewrite Hen. simpl.
  rewrite bool_decide_false by done. rewrite Har, Hacl.
  destruct token as [t|], aclObj as [o|]; simpl in *; rewrite ?Hexec; simpl;
    rewrite bool_decide_false by done; simpl;
    rewrite bool_decide_false by (by destruct (Cmd req)); simpl;
    rewrite Hcaps; simpl; by destruct (IsErrUnknownAllocation a e).
Qed.

(** *** The failure paths of the second part *)

(** X13, allocation state failure.  When the state of the allocation cannot
    be read, the status is 404 for an unknown-allocation error and 500
    otherwise, the error is handed on, and the handler is not called. *)
Theorem alloc_state_failure (a : Client) (execID : string) (st st1 : State)
    (v : Validated) (e : Error) :
  execImpl_validate a execID st = (st1, Continue v) →
  GetAllocState a (AllocID (v_req v)) = inl e →
  (execImpl a execID st).2 =
    (Some (if IsErrUnknownAllocation a e then 404 else 500), Some e) ∧
  handler_not_invoked st (execImpl a execID st).1.
Proof.
  intros Hv Hst. apply (locate_return a execID st st1 v); [done|].
  unfold execImpl_locate, lookupCode, Int64ToPtr. unfold_M. rewrite Hst. simpl.
  by destruct (IsErrUnknownAllocation a e).
Qed.

(** X14, nil task state.  A task whose entry in the task-state mapping holds a
    nil state is answered like a task without an entry: status 400 and
    "unknown task name". *)
Theorem nil_task_state (a : Client) (execID : string) (st st1 : State)
    (v : Validated) (allocState : AllocState) :
  execImpl_validate a execID st = (st1, Continue v) →
  GetAllocState a (AllocID (v_req v)) = inr allocState →
  TaskStates allocState !! Task (v_req v) = Some None →
  (execImpl a execID st).2 =
    (Some 400,
     Some (errorString ("unknown task name " +:+ quote a (Task (v_req v))))) ∧
  handler_not_invoked st (execImpl a execID st).1.
Proof.
  intros Hv Hst Hts. apply (locate_return a execID st st1 v); [done|].
  unfold execImpl_locate. unfold_M. rewrite Hst. simpl. by rewrite Hts.
Qed.

End ErrorPaths.

Lemma count_zero_filter (f : Event → bool) (evs : list Event) :
  count f evs = 0%nat → List.filter f evs = [].
Proof. unfold count. apply nil_length_inv. Qed.

Section Audit.

Context `{Codec} `{ErrorText}.

Lemma Recv_frame_input (s : execStream) (st : State) :
  (Recv s st).1.1 = Some (decodeInput (conn_in (st_conn st)) zeroRequestMsg).1.1 ∧
  (Recv s st).1.2 = (decodeInput (conn_in (st_conn st)) zeroRequestMsg).1.2.
Proof. unfold Recv. by destruct (decodeInput _ _) as [[req err] rest]. Qed.

(** *** The audit record and the capability checks *)

Lemma run_counts (v : Validated) (h : TaskExecHandler) (st : State) :
  ∃ evs, st_events (execImpl_run v h st).1 = st_events st ++ evs ∧
         count is_session_starting evs = 0%nat ∧
         count is_capability_check evs = 0%nat.
Proof.
  destruct (run_trace v h st) as (logs & lvl & msg & E & Hlogs).
  eexists. split; [exact E|].
  change (EvHandler (Cmd (v_req v)) (Tty (v_req v)) :: logs ++ [EvLog lvl msg; EvCtxCancel])
    with ([EvHandler (Cmd (v_req v)) (Tty (v_req v))] ++ logs ++ [EvLog lvl msg; EvCtxCancel]).
  rewrite !count_app, !(count_logs _ logs) by done. done.
Qed.

Lemma locate_counts (a : Client) (v : Validated) (st : State) :
  ∃ evs, st_events (execImpl_locate a v st).1 = st_events st ++ evs ∧
         count is_session_starting evs = 0%nat ∧
         count is_capability_check evs = 0%nat.
Proof.
  destruct (locate_spec a v st) as (evs & E & Hall & _).
  exists evs. split; [done|]. by rewrite !(count_cancels _ evs).
Qed.

(** What the later parts add to the record holds no audit record and no
    capability check. *)
Lemma after_validate (a : Client) (execID : string) (st : State) :
  ∃ evs, st_events (execImpl a execID st).1 =
           st_events (execImpl_validate a execID st).1 ++ evs ∧
         count is_session_starting evs = 0%nat ∧
         count is_capability_check evs = 0%nat.
Proof.
  rewrite execImpl_unfold.
  destruct (execImpl_validate a execID st) as [st1 [v|code err]]; simpl.
  2: { exists []. by rewrite app_nil_r. }
  destruct (locate_counts a v st1) as (evs & E & Hs & Hc).
  destruct (execImpl_locate a v st1) as [st2 [h|code err]]; simpl in *.
  2: { by exists evs. }
  destruct (run_counts v h st2) as (evs' & E' & Hs' & Hc').
  destruct (execImpl_run v h st2) as [st3 [[]|code err]]; simpl in *.
  exists (evs ++ evs'). rewrite E', E, <- app_assoc, !count_app, Hs, Hs', Hc, Hc'. done.
Qed.

(** X6, the audit record.  Whenever the allocation named by the request is
    found, the run records, right after the "parsed args" line and before any
    capability check, one audit record with the session identifier, the
    allocation ID, task, command and tty flag of the request and the name and
    accessor ID of the token (empty when there is no token); it records no
    second one, whatever the outcome of the run. *)
Theorem audit_record (a : Client) (execID : string) (st : State)
    (req : AllocExecRequest) (rest : list byte) (ar : AllocRunner) :
  decodeRequest (conn_in (st_conn st)) zeroAllocExecRequest = (req, None, rest) →
  DisableRemoteExec a = false →
  AllocID req ≠ EmptyString →
  getAllocRunner a (AllocID req) = inr ar →
  ∃ evs,
    new_events st (execImpl a execID st).1 =
      EvLog LError "alloc_exec: parsed args" ::
      EvSessionStarting execID (AllocID req) (Task req) (Cmd req) (Tty req)
        (tokenIdentity (resolveTokenAndACL a (AuthToken req)).1.2).1
        (tokenIdentity (resolveTokenAndACL a (AuthToken req)).1.2).2 :: evs ∧
    count is_session_starting evs = 0%nat.
Proof.
  intros Hdec Hen Hid Har.
  destruct (after_validate a execID st) as (evs' & E' & Hs' & _).
  assert (∃ evs, st_events (execImpl_validate a execID st).1 =
    st_events st ++
    EvLog LError "alloc_exec: parsed args" ::
    EvSessionStarting execID (AllocID req) (Task req) (Cmd req) (Tty req)
      (tokenIdentity (resolveTokenAndACL a (AuthToken req)).1.2).1
      (tokenIdentity (resolveTokenAndACL a (AuthToken req)).1.2).2 :: evs ∧
    count is_session_starting evs = 0%nat) as (evs & E & Hs).
  { unfold execImpl_validate, decodeArgs. unfold_M. rewrite Hdec. simpl.
    rewrite Hen. simpl. rewrite bool_decide_false by done. rewrite Har.
    destruct (resolveTokenAndACL a (AuthToken req)) as [[aclObj token] err].
    destruct token as [t|]; simpl;
      repeat (case_match; simplify_eq/=);
      rewrite <- ?app_assoc; eexists; (split; [reflexivity|done]). }
  exists (evs ++ evs'). split.
  - apply new_events_app. rewrite E', E, <- app_assoc. done.
  - by rewrite count_app, Hs, Hs'.
Qed.

(** X5, the capability checks.  The capability checks of a run are none, or
    the "alloc-exec" check alone, or the "alloc-exec" check followed by the
    "alloc-node-exec" check, all in one namespace; a caller without a
    capability set is never checked. *)
Theorem capability_check_order (a : Client) (execID : string) (st : State) :
  (∃ ns,
     List.filter is_capability_check (new_events st (execImpl a execID st).1) = [] ∨
     List.filter is_capability_check (new_events st (execImpl a execID st).1) =
       [EvAllowNsOp ns NamespaceCapabilityAllocExec] ∨
     List.filter is_capability_check (new_events st (execImpl a execID st).1) =
       [EvAllowNsOp ns NamespaceCapabilityAllocExec;
        EvAllowNsOp ns NamespaceCapabilityAllocNodeExec]) ∧
  ((resolveTokenAndACL a
      (AuthToken (decodeRequest (conn_in (st_conn st)) zeroAllocExecRequest).1.1)).1.1
     = None →
   List.filter is_capability_check (new_events st (execImpl a execID st).1) = []).
Proof.
  destruct (after_validate a execID st) as (evs' & E' & _ & Hc').
  apply count_zero_filter in Hc'.
  assert (∃ evs, st_events (execImpl_validate a execID st).1 = st_events st ++ evs ∧
    (∃ ns, List.filter is_capability_check evs = [] ∨
           List.filter is_capability_check evs =
             [EvAllowNsOp ns NamespaceCapabilityAllocExec] ∨
           List.filter is_capability_check evs =
             [EvAllowNsOp ns NamespaceCapabilityAllocExec;
              EvAllowNsOp ns NamespaceCapabilityAllocNodeExec]) ∧
    ((resolveTokenAndACL a
        (AuthToken (decodeRequest (conn_in (st_conn st)) zeroAllocExecRequest).1.1)).1.1
       = None → List.filter is_capability_check evs = [])) as (evs & E & Hsh & Htr).
  { unfold execImpl_validate, decodeArgs. unfold_M.
    destruct (decodeRequest _ _) as [[req err] rest]. simpl.
    destruct (resolveTokenAndACL a (AuthToken req)) as [[aclObj token] rerr].
    repeat (case_match; simplify_eq/=);
      rewrite <- ?app_assoc; eexists;
      (split; [try reflexivity; by rewrite app_nil_r|]);
      simpl; (split; [|done]);
      first [ by exists EmptyString; left
            | eexists; right; left; reflexivity
            | eexists; right; right; reflexivity ]. }
  rewrite (new_events_app st _ (evs ++ evs')) by (by rewrite E', E, app_assoc).
  rewrite List.filter_app, Hc', app_nil_r. done.
Qed.

(** *** The connection before and at the start of the session *)

(** X15, the input of the session.  When the handler is reached, [execImpl]
    has read the request off the connection and nothing more, has written
    nothing and has used up none of the connection's writes: the handler
    starts on the bytes that follow the request. *)
Theorem session_input (a : Client) (execID : string) (st st1 st2 : State)
    (v : Validated) (h : TaskExecHandler) :
  execImpl_validate a execID st = (st1, Continue v) →
  execImpl_locate a v st1 = (st2, Continue h) →
  st_conn st2 =
    set_in (decodeRequest (conn_in (st_conn st)) zeroAllocExecRequest).2 (st_conn st) ∧
  (Recv newExecStream st2).1 =
    (Some (decodeInput
             (decodeRequest (conn_in (st_conn st)) zeroAllocExecRequest).2
             zeroRequestMsg).1.1,
     (decodeInput
        (decodeRequest (conn_in (st_conn st)) zeroAllocExecRequest).2
        zeroRequestMsg).1.2).
Proof.
  intros Hv Hl.
  destruct (validate_trace a execID st) as (_ & _ & _ & _ & _ & C1 & _).
  destruct (locate_spec a v st1) as (_ & _ & _ & C2).
  rewrite Hv in C1. rewrite Hl in C2. simpl in *.
  assert (st_conn st2 =
    set_in (decodeRequest (conn_in (st_conn st)) zeroAllocExecRequest).2 (st_conn st))
    as C by (by rewrite C2, C1).
  split; [done|].
  destruct (Recv_frame_input newExecStream st2) as [E1 E2].
  rewrite C in E1, E2. simpl in *.
  destruct (Recv newExecStream st2) as [[p e] st']; simpl in *. by rewrite E1, E2.
Qed.

(** X16, failure before the session.  When a run ends without the handler
    having been called, it ends with an error, nothing has been written on
    the connection, and [exec] hands that error and its status code to the
    error report on a connection of which only the request has been read,
    then closes it. *)
Theorem pre_session_failure (a : Client) (execID : string) (st : State) :
  handler_not_invoked st (execImpl a execID st).1 →
  ∃ e, (execImpl a execID st).2.2 = Some e ∧
       new_output st (execImpl a execID st).1 = [] ∧
       st_conn (exec a execID st) =
         connClose
           (handleStreamResultError e (execImpl a execID st).2.1
              (set_in (decodeRequest (conn_in (st_conn st)) zeroAllocExecRequest).2
                 (st_conn st))).
Proof.
  intros Hno. unfold exec. revert Hno. rewrite execImpl_unfold.
  destruct (validate_trace a execID st) as (evs & E1 & _ & _ & _ & C1 & R1).
  destruct (execImpl_validate a execID st) as [st1 [v|code err]]; simpl in *.
  2: { intros _. destruct (R1 code err eq_refl) as [_ He].
       destruct err as [e|]; [|done]. exists e. split_and!; [done|..].
       - apply new_output_app. rewrite C1. simpl. by rewrite app_nil_r.
       - simpl. by rewrite C1. }
  destruct (locate_trace a v st1) as (evs' & E2 & _ & _ & _ & _ & R2).
  destruct (locate_spec a v st1) as (_ & _ & _ & C2).
  destruct (execImpl_locate a v st1) as [st2 [h|code err]]; simpl in *.
  2: { intros _. destruct (R2 code err eq_refl) as (_ & _ & He).
       destruct err as [e|]; [|done]. exists e. split_and!; [done|..].
       - apply new_output_app. rewrite C2, C1. simpl. by rewrite app_nil_r.
       - simpl. by rewrite C2, C1. }
  destruct (run_trace v h st2) as (logs & lvl & msg & E3 & _).
  destruct (execImpl_run v h st2) as [st3 [[]|code err]]; simpl in *.
  intros Hno. exfalso. apply (Hno (Cmd (v_req v)) (Tty (v_req v))).
  rewrite (new_events_app st st3
    (evs ++ evs' ++ EvHandler (Cmd (v_req v)) (Tty (v_req v)) ::
       logs ++ [EvLog lvl msg; EvCtxCancel]))
    by (by rewrite E3, E2, E1, <- !app_assoc).
  rewrite !elem_of_app, elem_of_cons. auto.
Qed.

End Audit.

Section Stream.

Context `{Codec} `{ErrorText}.

(** *** Send and Recv together *)

(** X17, the two directions are independent.  [Send] reads nothing and [Recv]
    writes and logs nothing, so a [Send] followed by a [Recv] and the same
    [Recv] followed by the same [Send] return the same frame and errors and
    leave the same stream and the same state. *)
Theorem Send_Recv_commute (s : execStream) (m : ExecTaskStreamingResponseMsg)
    (st : State) :
  (Recv (Send s m st).1.1 (Send s m st).1.2).1 = (Recv s st).1 ∧
  (Send s m (Recv s st).2).2 = (Send s m st).2 ∧
  (Send s m (Recv s st).2).1.1 = (Send s m st).1.1 ∧
  (Send s m (Recv s st).2).1.2 = (Recv (Send s m st).1.1 (Send s m st).1.2).2.
Proof.
  unfold Send, Recv, Encode, connWrite, set_conn, set_in. simpl.
  destruct (conn_faults (st_conn st)) as [|[e|] fs]; simpl;
    destruct (decodeInput (conn_in (st_conn st)) zeroRequestMsg) as [[req err] rest];
    done.
Qed.

(** X18, frames in order.  On a connection that refuses no write, what a
    handler leaves on the connection is one envelope for each frame it passed
    to [Send], in the order of the calls, and nothing else; each envelope
    holds the encoding of its own frame only, whatever was sent before. *)
Theorem sends_in_order (p : HandlerProg) (s : execStream) (st : State) :
  accepts_writes (st_conn st) →
  new_output st (runHandler p s st).1 =
    concat (map (λ m, encodeWrapper (frameEnvelope m)) (sentFrames p s st)).
Proof.
  intros Ha. apply new_output_app. revert s st Ha.
  induction p as [err|m k IH|k IH]; intros s st Ha; simpl.
  - by rewrite app_nil_r.
  - destruct (Send_accepted s m st Ha) as (A & _ & O).
    destruct (Send s m st) as [[s' st'] err]; simpl in *.
    rewrite (IH err s' st' A), O. unfold frameEnvelope. by rewrite <- app_assoc.
  - pose proof (Recv_output s st) as O. pose proof (Recv_faults s st) as F.
    destruct (Recv s st) as [[req err] st']; simpl in *.
    rewrite IH, O; [done|]. unfold accepts_writes. by rewrite F.
Qed.

End Stream.

(** * Properties of the request/response endpoints *)

Section RequestEndpointFacts.

Context {S U : Type} `{NodeOps S U} `{CapabilityNames}.

(** X20, GarbageCollectAll.  [GarbageCollectAll] returns nil exactly when the
    token resolves and the caller has no capability set or has node write
    permission; it then has collected all allocations, and in every other
    case it has left the node as it was. *)
Theorem GarbageCollectAll_authorized_only (args : NodeSpecificRequest) (s : S) :
  ((GarbageCollectAll args s).2 = None ↔
     ResolveToken (node_AuthToken args) s = (None, None) ∨
     ∃ o, ResolveToken (node_AuthToken args) s = (Some o, None) ∧
          AllowNodeWrite o = true) ∧
  ((GarbageCollectAll args s).2 = None →
     (GarbageCollectAll args s).1 = CollectAllAllocs s) ∧
  ((GarbageCollectAll args s).2 ≠ None → (GarbageCollectAll args s).1 = s).
Proof.
  unfold GarbageCollectAll.
  destruct (ResolveToken (node_AuthToken args) s) as [[o|] [e|]]; simpl;
    try destruct (AllowNodeWrite o) eqn:Hw; simpl; split_and!; try done;
    try (split; [done|intros [?|(o' & ? & ?)]; simplify_eq/=; congruence]);
    try (split; [intros _|done]); eauto.
Qed.

(** X21, GarbageCollect.  A caller who may not act on the allocation (unknown
    allocation, unresolved token, or a capability set without submit-job in
    the allocation's namespace) gets an error and the node is left as it was;
    a caller who may gets the outcome of the collection: nil when the
    allocation was collected and an error when it was not. *)
Theorem GarbageCollect_authorized_only (args : AllocSpecificRequest) (s : S) :
  (¬ mayActOn (gc_AllocID args) (gc_AuthToken args) NamespaceCapabilitySubmitJob s →
     (GarbageCollect args s).1 = s ∧ (GarbageCollect args s).2 ≠ None) ∧
  (mayActOn (gc_AllocID args) (gc_AuthToken args) NamespaceCapabilitySubmitJob s →
     (GarbageCollect args s).1 = (CollectAllocation (gc_AllocID args) s).1 ∧
     ((GarbageCollect args s).2 = None ↔
        (CollectAllocation (gc_AllocID args) s).2 = true)).
Proof.
  unfold mayActOn, GarbageCollect. split.
  - intros Hno.
    destruct (GetAlloc (gc_AllocID args) s) as [e|alloc]; [done|].
    destruct (ResolveToken (gc_AuthToken args) s) as [aclObj [e|]]; [done|].
    destruct (nsOpDenied aclObj _ _) eqn:Hd; [done|].
    exfalso. apply Hno. by exists alloc, aclObj.
  - intros (alloc & aclObj & -> & -> & ->).
    destruct (CollectAllocation (gc_AllocID args) s) as [s' []]; simpl; split; done.
Qed.

(** X22, Signal and Restart.  [Signal] and [Restart] ask for the same
    capability, alloc-lifecycle.  A caller who may not act on the allocation
    gets an error from either and the node is left as it was; for a caller
    who may, [Signal] is the client's [SignalAllocation] with the allocation,
    task and signal of the request, and [Restart] is the client's
    [RestartAllocation] with the allocation and task name of the request. *)
Theorem Signal_Restart_authorized_only (sig : AllocSignalRequest)
    (restart : AllocRestartRequest) (s : S) :
  (¬ mayActOn (sig_AllocID sig) (sig_AuthToken sig) NamespaceCapabilityAllocLifecycle s →
     (Signal sig s).1 = s ∧ (Signal sig s).2 ≠ None) ∧
  (mayActOn (sig_AllocID sig) (sig_AuthToken sig) NamespaceCapabilityAllocLifecycle s →
     Signal sig s =
       SignalAllocation (sig_AllocID sig) (sig_Task sig) (sig_Signal sig) s) ∧
  (¬ mayActOn (restart_AllocID restart) (restart_AuthToken restart)
       NamespaceCapabilityAllocLifecycle s →
     (Restart restart s).1 = s ∧ (Restart restart s).2 ≠ None) ∧
  (mayActOn (restart_AllocID restart) (restart_AuthToken restart)
     NamespaceCapabilityAllocLifecycle s →
     Restart restart s =
       RestartAllocation (restart_AllocID restart) (restart_TaskName restart) s).
Proof.
  unfold mayActOn, Signal, Restart. split_and!.
  - intros Hno.
    destruct (GetAlloc (sig_AllocID sig) s) as [e|alloc]; [done|].
    destruct (ResolveToken (sig_AuthToken sig) s) as [aclObj [e|]]; [done|].
    destruct (nsOpDenied aclObj _ _) eqn:Hd; [done|].
    exfalso. apply Hno. by exists alloc, aclObj.
  - by intros (alloc & aclObj & -> & -> & ->).
  - intros Hno.
    destruct (GetAlloc (restart_AllocID restart) s) as [e|alloc]; [done|].
    destruct (ResolveToken (restart_AuthToken restart) s) as [aclObj [e|]]; [done|].
    destruct (nsOpDenied aclObj _ _) eqn:Hd; [done|].
    exfalso. apply Hno. by exists alloc, aclObj.
  - by intros (alloc & aclObj & -> & -> & ->).
Qed.

(** X23, Stats.  [Stats] fills in its reply only when it returns nil, and then
    with the latest statistics of the task; whenever it returns an error the
    reply is the one it was given.  It returns nil only for a caller who may
    act on the allocation with read-job. *)
Theorem Stats_reply (args : AllocStatsRequest) (reply : AllocStatsResponse U) (s : S) :
  ((Stats args reply s).2 ≠ None → (Stats args reply s).1 = reply) ∧
  ((Stats args reply s).2 = None →
     mayActOn (stats_AllocID args) (stats_AuthToken args) NamespaceCapabilityReadJob s ∧
     ∃ aStats stats,
       GetAllocStats (stats_AllocID args) s = inr aStats ∧
       LatestAllocStats aStats (stats_Task args) = inr stats ∧
       (Stats args reply s).1 = mkAllocStatsResponse stats).
Proof.
  unfold mayActOn, Stats.
  destruct (GetAlloc (stats_AllocID args) s) as [e|alloc]; [done|].
  destruct (ResolveToken (stats_AuthToken args) s) as [aclObj [e|]]; [done|].
  destruct (nsOpDenied aclObj _ _) eqn:Hd; [done|].
  destruct (GetAllocStats (stats_AllocID args) s) as [e|aStats]; [done|].
  destruct (LatestAllocStats aStats (stats_Task args)) as [e|stats] eqn:Hl; [done|].
  simpl. split; [done|]. intros _. split; eauto 10.
Qed.

End RequestEndpointFacts.

(** * Properties of the Nix task hook *)

Section NixHookFacts.

Context {W : Type} `{Host W} `{Fmt} `{ErrorText}.

(** *** Reading the task configuration *)

Lemma getStrArr_loop_ok (key : string) (vs : list ConfigValue) :
  ∀ (i : nat) (acc arr : list string),
  getStrArr_loop key i vs acc = inr arr ↔
  ∃ strs, vs = map CVString strs ∧ arr = acc ++ strs.
Proof.
  induction vs as [|vv vs IH]; intros i acc arr; simpl.
  - split.
    + intros [= <-]. exists []. by rewrite app_nil_r.
    + intros ([|? ?] & Hvs & ->); [by rewrite app_nil_r|done].
  - destruct vv as [s|b|l|r].
    + rewrite IH. split.
      * intros (strs & -> & ->). exists (s :: strs). by rewrite <- app_assoc.
      * intros ([|s' strs] & Hvs & ->); simplify_eq/=.
        exists strs. by rewrite <- app_assoc.
    + split; [done|]. intros ([|? ?] & ? & _); done.
    + split; [done|]. intros ([|? ?] & ? & _); done.
    + split; [done|]. intros ([|? ?] & ? & _); done.
Qed.

Lemma getStrArr_loop_error (key : string) (vs : list ConfigValue) :
  ∀ (i : nat) (acc : list string) (e : Error),
  getStrArr_loop key i vs acc = inl e →
  ∃ (k : nat) (vv : ConfigValue),
    vs !! k = Some vv ∧
    (∀ s, vv ≠ CVString s) ∧
    (∀ j, (j < k)%nat → ∃ s, vs !! j = Some (CVString s)) ∧
    e = errorString
          (key +:+ "[" +:+ fmt_d (i + k) +:+ "] is not a string: " +:+ fmt_v vv).
Proof.
  induction vs as [|vv vs IH]; intros i acc e; simpl; [done|].
  destruct vv as [s|b|l|r].
  - intros He. destruct (IH _ _ _ He) as (k & vv & Hk & Hns & Hbefore & ->).
    exists (S k), vv. split_and!; try done.
    + intros [|j] Hj; simpl; [by eexists|]. apply Hbefore. lia.
    + by rewrite Nat.add_succ_r.
  - intros [= <-]. exists 0%nat, (CVBool b).
    rewrite Nat.add_0_r. split_and!; try done. intros j Hj. lia.
  - intros [= <-]. exists 0%nat, (CVList l).
    rewrite Nat.add_0_r. split_and!; try done. intros j Hj. lia.
  - intros [= <-]. exists 0%nat, (CVOther r).
    rewrite Nat.add_0_r. split_and!; try done. intros j Hj. lia.
Qed.

(** X24, getStrArr, success.  A missing key gives the empty list; a value
    that is not a list gives the "is not a list" error; and for a list,
    [getStrArr] succeeds exactly when every element is a string, and then
    returns the strings in the order of the list. *)
Theorem getStrArr_strings (config : gmap string ConfigValue) (key : string) :
  (config !! key = None → getStrArr config key = inr []) ∧
  (∀ vs arr, config !! key = Some (CVList vs) →
     (getStrArr config key = inr arr ↔ vs = map CVString arr)) ∧
  (∀ v, config !! key = Some v → (∀ vs, v ≠ CVList vs) →
     getStrArr config key =
       inl (errorString (key +:+ " is not a list: " +:+ fmt_v v))).
Proof.
  unfold getStrArr. split_and!.
  - by intros ->.
  - intros vs arr ->. rewrite getStrArr_loop_ok. split.
    + by intros (strs & -> & ->).
    + intros ->. by exists arr.
  - intros v -> Hnl. destruct v; try done. by destruct (Hnl vs).
Qed.

(** X25, getStrArr, failure.  When [getStrArr] fails on a list, the error
    names the index and the value of the first element that is not a string:
    every element before it is a string. *)
Theorem getStrArr_first_offender (config : gmap string ConfigValue) (key : string)
    (vs : list ConfigValue) (e : Error) :
  config !! key = Some (CVList vs) →
  getStrArr config key = inl e →
  ∃ (k : nat) (vv : ConfigValue),
    vs !! k = Some vv ∧
    (∀ s, vv ≠ CVString s) ∧
    (∀ j, (j < k)%nat → ∃ s, vs !! j = Some (CVString s)) ∧
    e = errorString (key +:+ "[" +:+ fmt_d k +:+ "] is not a string: " +:+ fmt_v vv).
Proof.
  unfold getStrArr. intros -> He. by apply getStrArr_loop_error in He.
Qed.

(** *** Prestart *)

(** X26, nothing to install.  When the task configuration has no
    "nix_installables", or an empty list of them, [Prestart] returns nil at
    once: the host is not touched, nothing is reported, no mount is added
    whatever "nix_host" says, and the response is marked done. *)
Theorem Prestart_nothing_to_install (req : TaskPrestartRequest)
    (resp : TaskPrestartResponse) (st : HookState W) :
  Config req !! "nix_installables" = None ∨
  Config req !! "nix_installables" = Some (CVList []) →
  Prestart req resp st = (st, mkTaskPrestartResponse (Mounts resp) true, None).
Proof.
  intros [E|E]; unfold Prestart, getStrArr; rewrite E; done.
Qed.

(** X27, the response.  On every path [Prestart] marks the response done and
    keeps the mounts it was given; it adds at most one mount, the read-write
    "/nix" of the host with propagation "host-to-task", and only when
    "nix_host" is the bool true and there is something to install. *)
Theorem Prestart_response (req : TaskPrestartRequest) (resp : TaskPrestartResponse)
    (st : HookState W) :
  Done (Prestart req resp st).1.2 = true ∧
  (Mounts (Prestart req resp st).1.2 = Mounts resp ∨
   (Mounts (Prestart req resp st).1.2 =
      Mounts resp ++ [mkMountConfig "/nix" "/nix" false "host-to-task"] ∧
    Config req !! "nix_host" = Some (CVBool true) ∧
    ∃ installables, getStrArr (Config req) "nix_installables" = inr installables ∧
                    installables ≠ [])).
Proof.
  unfold Prestart.
  destruct (getStrArr (Config req) "nix_installables") as [e|installables];
    [by split; [|left]|].
  case_bool_decide as Hlen; [by split; [|left]|].
  assert (installables ≠ []) as Hne by (by destruct installables).
  destruct (getStrArr (Config req) "nix_profile_install_args") as [e|args];
    [by split; [|left]|].
  destruct (Config req !! "nix_host") as [[s|[]|l|r]|] eqn:Hhost; simpl;
    repeat (case_match; simplify_eq/=); split; try done; eauto 10.
Qed.

(** *** install *)





(** X29, profile already there.  When the "current-alloc" profile of the task
    directory exists, [install] builds nothing: the host is not touched and
    nothing is reported.  [Prestart] with "nix_host" true then only adds the
    mount; it reports nothing and leaves the host as it was. *)
Theorem Prestart_profile_exists (req : TaskPrestartRequest)
    (resp : TaskPrestartResponse) (st : HookState W)
    (installables args : list string) (user : OSUser) (uid gid : Z) :
  getStrArr (Config req) "nix_installables" = inr installables →
  installables ≠ [] →
  getStrArr (Config req) "nix_profile_install_args" = inr args →
  Config req !! "nix_host" = Some (CVBool true) →
  (if bool_decide (User req = EmptyString)
   then users_Nobody (host st) else users_Lookup (User req) (host st)) = inr user →
  strconv_Atoi (Uid user) = inr uid →
  strconv_Atoi (Gid user) = inr gid →
  os_Stat (filepath_Join (Dir req) "current-alloc") (host st) = None →
  install installables args (Dir req) true uid gid st = (st, None) ∧
  Prestart req resp st =
    (st,
     mkTaskPrestartResponse
       (Mounts resp ++ [mkMountConfig "/nix" "/nix" false "host-to-task"]) true,
     None).
Proof.
  intros Hi Hne Ha Hhost Huser Huid Hgid Hstat.
  assert (install installables args (Dir req) true uid gid st = (st, None)) as Hinst.
  { unfold install. by rewrite Hstat. }
  split; [done|].
  unfold Prestart. rewrite Hi, Ha, Hhost.
  rewrite bool_decide_false by (by destruct installables).
  case_bool_decide; simpl in *; rewrite Huser, Huid, Hgid, Hinst; done.
Qed.

End NixHookFacts.

(** ** The further properties on the fixtures *)

Import Fixture2 HookFixture.

Lemma decode_failure_witness :
  (execImpl (node false) "x1" (fresh [])).2 = (Some 500, Some errEOF) ∧
  new_events (fresh []) (execImpl (node false) "x1" (fresh [])).1 =
    [EvLog LError "alloc_exec: failed to decode request"] ∧
  new_output (fresh []) (execImpl (node false) "x1" (fresh [])).1 = [].
Proof.
  apply (decode_failure (node false) "x1" (fresh []) zeroAllocExecRequest errEOF []).
  vm_compute; reflexivity.
Defined.



Lemma token_resolution_failure_witness :
  (execImpl (node false) "x1" (incoming (request "a1" "web" echo "bogus"))).2 =
    (None, Some (errorString "ACL token not found")) ∧
  new_events (incoming (request "a1" "web" echo "bogus"))
    (execImpl (node false) "x1" (incoming (request "a1" "web" echo "bogus"))).1 =
    [EvLog LError "alloc_exec: parsed args";
     EvSessionStarting "x1" "a1" "web" echo false EmptyString EmptyString].
Proof.
  apply (token_resolution_failure (node false) "x1"
           (incoming (request "a1" "web" echo "bogus"))
           (request "a1" "web" echo "bogus") [] ar1 None None
           (errorString "ACL token not found")).
  - vm_compute; reflexivity.
  - reflexivity.
  - simpl; discriminate.
  - vm_compute; reflexivity.
  - vm_compute; reflexivity.
Defined.

Lemma argument_validation_witness :
  (execImpl (node false) "x1" (incoming (request "a1" EmptyString [] "exec"))).2 =
    (Some 400, Some taskNotPresentErr) ∧
  (execImpl (node false) "x1" (incoming (request "a1" "web" [] "exec"))).2 =
    (Some 400, Some (errorString "command is not present")).
Proof.
  split.
  - refine (proj1
      (argument_validation (node false) "x1"
         (incoming (request "a1" EmptyString [] "exec"))
         (request "a1" EmptyString [] "exec") [] ar1 (Some execACL)
         (Some (mkACLToken "dev" "acc-1")) _ _ _ _ _ _) _);
      try (vm_compute; reflexivity); simpl; discriminate.
  - refine (proj1 (proj2
      (argument_validation (node false) "x1"
         (incoming (request "a1" "web" [] "exec"))
         (request "a1" "web" [] "exec") [] ar1 (Some execACL)
         (Some (mkACLToken "dev" "acc-1")) _ _ _ _ _ _)) _ _);
      try (vm_compute; reflexivity); simpl; discriminate.
Defined.

Lemma driver_capabilities_failure_witness :
  (execImpl (node false) "x1" (incoming (request "a1" "nope" echo EmptyString))).2 =
    (Some 500, Some (errorString "task not found")) ∧
  handler_not_invoked (incoming (request "a1" "nope" echo EmptyString))
    (execImpl (node false) "x1" (incoming (request "a1" "nope" echo EmptyString))).1.
Proof.
  apply (driver_capabilities_failure (node false) "x1"
           (incoming (request "a1" "nope" echo EmptyString))
           (request "a1" "nope" echo EmptyString) [] ar1 None None
           (errorString "task not found"));
    try (vm_compute; reflexivity); try (simpl; discriminate).
Defined.

Lemma alloc_state_failure_witness :
  (execImpl node2 "x1" (incoming (request "a3" "web" echo EmptyString))).2 =
    (Some 404, Some (errUnknownAlloc "a3")) ∧
  handler_not_invoked (incoming (request "a3" "web" echo EmptyString))
    (execImpl node2 "x1" (incoming (request "a3" "web" echo EmptyString))).1.
Proof.
  apply (alloc_state_failure node2 "x1"
           (incoming (request "a3" "web" echo EmptyString))
           (execImpl_validate node2 "x1"
              (incoming (request "a3" "web" echo EmptyString))).1
           (mkValidated (request "a3" "web" echo EmptyString) ar2 None
              (mkCapabilities "chroot"))
           (errUnknownAlloc "a3")).
  - vm_compute; reflexivity.
  - vm_compute; reflexivity.
Defined.

Lemma nil_task_state_witness :
  (execImpl node2 "x1" (incoming (request "a1" "ghost" echo EmptyString))).2 =
    (Some 400, Some (errorString ("unknown task name " +:+ quoted "ghost"))) ∧
  handler_not_invoked (incoming (request "a1" "ghost" echo EmptyString))
    (execImpl node2 "x1" (incoming (request "a1" "ghost" echo EmptyString))).1.
Proof.
  apply (nil_task_state node2 "x1"
           (incoming (request "a1" "ghost" echo EmptyString))
           (execImpl_validate node2 "x1"
              (incoming (request "a1" "ghost" echo EmptyString))).1
           (mkValidated (request "a1" "ghost" echo EmptyString) ar2 None
              (mkCapabilities "chroot"))
           (mkAllocState taskStates2)).
  - vm_compute; reflexivity.
  - vm_compute; reflexivity.
  - vm_compute; reflexivity.
Defined.

Lemma audit_record_witness :
  ∃ evs,
    new_events (incoming (request "a1" "web" echo "read"))
      (execImpl (node false) "x1" (incoming (request "a1" "web" echo "read"))).1 =
      EvLog LError "alloc_exec: parsed args" ::
      EvSessionStarting "x1" "a1" "web" echo false "viewer" "acc-3" :: evs ∧
    count is_session_starting evs = 0%nat.
Proof.
  apply (audit_record (node false) "x1" (incoming (request "a1" "web" echo "read"))
           (request "a1" "web" echo "read") [] ar1).
  - vm_compute; reflexivity.
  - reflexivity.
  - simpl; discriminate.
  - vm_compute; reflexivity.
Defined.

Lemma session_input_witness :
  st_conn (execImpl_validate (node false) "x1"
             (fresh (writeRequest (request "a1" "web" echo "exec") ++
                     writeInput (mkRequestMsg (Some hi) None None)))).1 =
    mkConn (writeInput (mkRequestMsg (Some hi) None None)) [] [] false ∧
  (Recv newExecStream
     (execImpl_validate (node false) "x1"
        (fresh (writeRequest (request "a1" "web" echo "exec") ++
                writeInput (mkRequestMsg (Some hi) None None)))).1).1 =
    (Some (mkRequestMsg (Some hi) None None), None).
Proof.
  pose proof (session_input (node false) "x1"
           (fresh (writeRequest (request "a1" "web" echo "exec") ++
                   writeInput (mkRequestMsg (Some hi) None None)))
           (execImpl_validate (node false) "x1"
              (fresh (writeRequest (request "a1" "web" echo "exec") ++
                      writeInput (mkRequestMsg (Some hi) None None)))).1
           (execImpl_validate (node false) "x1"
              (fresh (writeRequest (request "a1" "web" echo "exec") ++
                      writeInput (mkRequestMsg (Some hi) None None)))).1
           (mkValidated (request "a1" "web" echo "exec") ar1 (Some execACL)
              (mkCapabilities "chroot"))
           echoHandler) as P.
  exact (P ltac:(vm_compute; reflexivity) ltac:(vm_compute; reflexivity)).
Defined.

Lemma pre_session_failure_witness :
  ∃ e,
    (execImpl (node false) "x1" (incoming (request "zz" "web" echo EmptyString))).2.2 =
      Some e ∧
    new_output (incoming (request "zz" "web" echo EmptyString))
      (execImpl (node false) "x1" (incoming (request "zz" "web" echo EmptyString))).1 = [] ∧
    st_conn (exec (node false) "x1" (incoming (request "zz" "web" echo EmptyString))) =
      connClose
        (handleStreamResultError e
           (execImpl (node false) "x1"
              (incoming (request "zz" "web" echo EmptyString))).2.1
           (set_in
              (decodeRequest
                 (conn_in (st_conn (incoming (request "zz" "web" echo EmptyString))))
                 zeroAllocExecRequest).2
              (st_conn (incoming (request "zz" "web" echo EmptyString))))).
Proof.
  apply (pre_session_failure (node false) "x1"
           (incoming (request "zz" "web" echo EmptyString))).
  apply (validate_return (node false) "x1"
           (incoming (request "zz" "web" echo EmptyString))
           (Some 404) (Some (errUnknownAlloc "zz"))).
  vm_compute; reflexivity.
Defined.

Lemma sends_in_order_witness :
  sentFrames (echoHandler echo false) newExecStream (fresh []) =
    [mkResponseMsg (Some hi) None false None; mkResponseMsg None None true (Some 0)] ∧
  new_output (fresh []) (runHandler (echoHandler echo false) newExecStream (fresh [])).1 =
    concat (map (λ m, encodeWrapper (frameEnvelope m))
              (sentFrames (echoHandler echo false) newExecStream (fresh []))).
Proof.
  split; [vm_compute; reflexivity|].
  pose proof (sends_in_order (echoHandler echo false) newExecStream (fresh [])) as P.
  exact (P ltac:(vm_compute; constructor)).
Defined.

Lemma getStrArr_first_offender_witness :
  ∃ (k : nat) (vv : ConfigValue),
    [CVString hello; CVBool true; CVString "x"] !! k = Some vv ∧
    (∀ s, vv ≠ CVString s) ∧
    (∀ j, (j < k)%nat →
       ∃ s, [CVString hello; CVBool true; CVString "x"] !! j = Some (CVString s)) ∧
    errorString "nix_installables[1] is not a string: true" =
      errorString ("nix_installables" +:+ "[" +:+ fmt_d k +:+ "] is not a string: " +:+
                   fmt_v vv).
Proof.
  apply (getStrArr_first_offender
           (config (CVList [CVString hello; CVBool true; CVString "x"]) false)
           "nix_installables").
  - vm_compute; reflexivity.
  - vm_compute; reflexivity.
Defined.

Lemma Prestart_nothing_to_install_witness :
  Prestart (mkTaskPrestartRequest (config (CVList []) true) "web" taskDir)
    noMounts emptyHost =
    (emptyHost, mkTaskPrestartResponse [] true, None).
Proof.
  apply (Prestart_nothing_to_install
           (mkTaskPrestartRequest (config (CVList []) true) "web" taskDir)
           noMounts emptyHost).
  right. vm_compute; reflexivity.
Defined.


Lemma Prestart_profile_exists_witness :
  install [hello] [] taskDir true 1000 1000 builtHost = (builtHost, None) ∧
  Prestart (mkTaskPrestartRequest (config (CVList [CVString hello]) true) "web" taskDir)
    noMounts builtHost =
    (builtHost,
     mkTaskPrestartResponse [mkMountConfig "/nix" "/nix" false "host-to-task"] true,
     None).
Proof.
  apply (Prestart_profile_exists
           (mkTaskPrestartRequest (config (CVList [CVString hello]) true) "web" taskDir)
           noMounts builtHost [hello] [] (mkOSUser "1000" "1000") 1000 1000).
  - vm_compute; reflexivity.
  - discriminate.
  - vm_compute; reflexivity.
  - vm_compute; reflexivity.
  - vm_compute; reflexivity.
  - vm_compute; reflexivity.
  - vm_compute; reflexivity.
  - vm_compute; reflexivity.
Defined.
